(** * NCERT-Solver: the retrieval-augmented generation core

    A shallow embedding of [src/rag/rag_pipeline.py] (the [RAGPipeline]
    class with its nested [SimpleLLM] fallback) and of the [/assessment]
    endpoint of [src/api/main.py], followed by the properties of the
    design document that can be settled on them.

    Conventions.
    - A Python [str] is a list of Unicode code points ([list N]), so that
      [len], slicing and [strip] count what Python counts.
    - A Python [dict] is a [gmap] with string keys.
    - Code that can raise runs in the [result] monad.  A value of [exn]
      stands for an instance of a subclass of Python's [Exception];
      [print] calls are not modelled.
    - Collaborators whose code lives outside the embedded files (the vector
      store, the language detector, the translator, the model backends,
      [json.loads]) are Section variables: every theorem holds whatever
      they do. *)

From Stdlib Require Import NArith ZArith Ascii String Lia.
From stdpp Require Import gmap strings list.

Local Open Scope string_scope.
Local Open Scope nat_scope.
Local Open Scope list_scope.

(** ** Python values *)

Abbreviation pystr := (list N).

Fixpoint str (s : string) : pystr :=
  match s with
  | EmptyString => []
  | String a s' => N_of_ascii a :: str s'
  end.

(** The characters that cannot be written inside a literal here. *)
Definition LF : pystr := [10%N].
Definition DQUOTE : pystr := [34%N].

#[local] Unset Elimination Schemes.
Inductive pyval :=
| PNone
| PInt (z : Z)
| PStr (s : pystr)
| PList (l : list pyval)
| PDict (d : gmap string pyval).
#[local] Set Elimination Schemes.

(** Exceptions: all of them instances of [Exception]. *)
Inductive exn :=
| HTTPException (status_code : Z) (detail : pystr)
| IndexError
| Exception (msg : pystr).

Inductive result (A : Type) :=
| Ok (a : A)
| Raise (e : exn).
Arguments Ok {A} a.
Arguments Raise {A} e.

(** Sequencing: the first exception raised ends the computation. *)
#[global] Instance result_bind : MBind result := λ A B k m,
  match m with
  | Ok a => k a
  | Raise e => Raise e
  end.

(** [try: body except Exception: handler] *)
Definition try_except {A} (body : result A) (handler : exn → result A) : result A :=
  match body with
  | Ok a => Ok a
  | Raise e => handler e
  end.

(** Truth value of an optional string: [None] and [''] are false. *)
Definition truthy (o : option pystr) : bool :=
  match o with
  | Some (_ :: _) => true
  | _ => false
  end.

(** ** The [str] and [list] primitives the program uses *)
Module Py.

Definition eqb (s t : pystr) : bool := bool_decide (s = t).

(** [s.startswith(pre)] *)
Fixpoint startswith (s pre : pystr) {struct pre} : bool :=
  match pre with
  | [] => true
  | p :: pre' =>
      match s with
      | c :: s' => N.eqb p c && startswith s' pre'
      | [] => false
      end
  end.

(** [s.partition(sep)] for a separator that occurs: the text before the
    first occurrence and the text after it. *)
Fixpoint partition (sep s : pystr) : option (pystr * pystr) :=
  if startswith s sep then Some ([], drop (length sep) s)
  else match s with
       | [] => None
       | c :: s' =>
           match partition sep s' with
           | Some (a, b) => Some (c :: a, b)
           | None => None
           end
       end.

(** [s.split(sep)]: cut at every occurrence, left to right.  The fuel is
    the length of [s]: each cut consumes a separator, and the separators
    of this program are non-empty literals. *)
Fixpoint split_fuel (fuel : nat) (sep s : pystr) : list pystr :=
  match fuel with
  | O => [s]
  | S fuel' =>
      match partition sep s with
      | None => [s]
      | Some (a, b) => a :: split_fuel fuel' sep b
      end
  end.

Definition split (sep s : pystr) : list pystr :=
  split_fuel (length s) sep s.

(** [s.rsplit(sep, 1)]: cut once, at the last occurrence. *)
Definition rsplit1 (sep s : pystr) : list pystr :=
  match partition (reverse sep) (reverse s) with
  | None => [s]
  | Some (a, b) => [reverse b; reverse a]
  end.

(** [str.isspace] on one character, the set [str.strip()] removes. *)
Definition isspace (c : N) : bool :=
  ((9 <=? c) && (c <=? 13) || (28 <=? c) && (c <=? 32)
   || (c =? 133) || (c =? 160) || (c =? 5760)
   || (8192 <=? c) && (c <=? 8202)
   || (c =? 8232) || (c =? 8233) || (c =? 8239) || (c =? 8287)
   || (c =? 12288))%N.

Fixpoint lstrip (s : pystr) : pystr :=
  match s with
  | c :: s' => if isspace c then lstrip s' else s
  | [] => []
  end.

Definition rstrip (s : pystr) : pystr := reverse (lstrip (reverse s)).

Definition strip (s : pystr) : pystr := rstrip (lstrip s).

(** [sep.join(l)] *)
Fixpoint join (sep : pystr) (l : list pystr) : pystr :=
  match l with
  | [] => []
  | [x] => x
  | x :: l' => x ++ sep ++ join sep l'
  end.

(** [s.replace(a, b)] for one-character [a] and [b]. *)
Definition replace_char (a b : N) (s : pystr) : pystr :=
  map (fun c => if N.eqb c a then b else c) s.

(** [l[i]]: raises [IndexError] out of range. *)
Definition index {A} (l : list A) (i : nat) : result A :=
  match l !! i with
  | Some x => Ok x
  | None => Raise IndexError
  end.

(** [d.get(key, default)] *)
Definition get (d : gmap string pyval) (key : string) (dflt : pyval) : pyval :=
  default dflt (d !! key).

End Py.

(** ** [src/rag/rag_pipeline.py] *)

(** *** [SimpleLLM], the extractive fallback (lines 29-66) *)
Module SimpleLLM.
Section generate.

(** [Translator(from_lang='en', to_lang=language).translate(answer)],
    import and construction included. *)
Variable translate : pystr → pystr → result pystr.

Definition canonical : pystr :=
  str "I don't have information about that in my NCERT knowledge base.".

Definition note (language : pystr) : pystr :=
  LF ++ str "[Note: Response in " ++ language
     ++ str " unavailable. English provided above.]".

(** Lines 34-38. *)
Definition extract_context (prompt : pystr) : result pystr :=
  let parts := Py.split (str "Context:") prompt in
  if 1 <? length parts then Py.index parts 1 else Ok prompt.

(** The test of line 44. *)
Definition keeps (s : pystr) : bool :=
  match s with [] => false | _ => true end
  && (15 <? length s) && negb (Py.startswith s (str "---")).

(** Lines 41-45: the loop appends to [sentences]. *)
Definition collect_sentences (ctx : pystr) : list pystr :=
  foldl (fun sentences line =>
           let s := Py.strip line in
           if keeps s then sentences ++ [s] else sentences)
        [] (Py.split LF ctx).

(** Lines 49-51. *)
Definition joined (sentences : list pystr) : pystr :=
  Py.join (str " ") (take 4 sentences).

Definition shorten (answer : pystr) : result pystr :=
  if 400 <? length answer then
    head ← Py.index (Py.rsplit1 (str " ") (take 400 answer)) 0;
    Ok (head ++ str ".")
  else Ok answer.

(** Lines 54-61. *)
Definition wants_translation (language : option pystr) : bool :=
  truthy language && negb (Py.eqb (default [] language) (str "en")).

Definition localise (language : option pystr) (answer : pystr) : result pystr :=
  if wants_translation language then
    let language := default [] language in
    try_except (translate language answer)
               (fun _ => Ok (answer ++ note language))
  else Ok answer.

(** The body of the outer [try]: [Some answer] is [return answer] at
    line 63, [None] is falling out of the [if sentences:] block. *)
Definition generate_body (prompt : pystr) (language : option pystr)
  : result (option pystr) :=
  ctx ← extract_context prompt;
  let sentences := collect_sentences ctx in
  match sentences with
  | _ :: _ =>
      answer ← shorten (joined sentences);
      answer ← localise language answer;
      Ok (Some answer)
  | [] => Ok None
  end.

(** [generate(self, prompt, language='en')] *)
Definition generate (prompt : pystr) (language : option pystr) : result pystr :=
  match try_except (generate_body prompt language) (fun _ => Ok None) with
  | Ok (Some answer) => Ok answer
  | Ok None => Ok canonical
  | Raise e => Raise e
  end.

End generate.
End SimpleLLM.

(** *** [RAGPipeline] *)

(** A retrieved passage: [doc.page_content] and [doc.metadata]. *)
Record Document := {
  page_content : pystr;
  metadata : gmap string pyval;
}.

(** The one method of the vector store the program calls:
    [search(query, namespace=..., k=..., filter=...)]. *)
Definition VectorStore : Type :=
  pystr → option pystr → nat → option (gmap string pyval) → result (list Document).

(** The backend classes an instance of which [self.llm] can hold. *)
Inductive LLM :=
| OllamaLLM (model_name : pystr)
| GeminiLLM
| LocalLLM
| SimpleLLM.

Record RAGPipeline := {
  vector_store : VectorStore;
  llm : LLM;
}.

(** [f"{subject}_{grade}".replace(" ", "_")] under [if subject and grade]. *)
Definition subject_grade_namespace (subject grade : option pystr) : option pystr :=
  if truthy subject && truthy grade then
    Some (Py.replace_char 32%N 95%N
            (default [] subject ++ str "_" ++ default [] grade))
  else None.

Definition passage_separator : pystr := LF ++ str "---" ++ LF.

Module Pipeline.
Section pipeline.

(** [os.environ] *)
Variable environ : gmap string pystr.
(** [VectorStoreManager()] *)
Variable VectorStoreManager : result VectorStore.
(** Import and construction of the three model backends. *)
Variable new_OllamaLLM : pystr → result unit.
Variable new_GeminiLLM : result unit.
Variable new_LocalLLM : result unit.
(** [generate] of the three model backends; the last argument is the
    [language] keyword when the caller passes one. *)
Variable model_generate : LLM → pystr → option pystr → result pystr.
Variable translate : pystr → pystr → result pystr.
(** [langdetect.detect] *)
Variable detect : pystr → result pystr.

Definition getenv (name : string) : option pystr := environ !! name.

(** Lines 9-68 of [__init__]: the choice of [self.llm]. *)
Definition init_llm : result LLM :=
  let ollama_model := getenv "OLLAMA_MODEL" in
  if truthy ollama_model then
    let ollama_model := default [] ollama_model in
    _ ← new_OllamaLLM ollama_model;
    Ok (OllamaLLM ollama_model)
  else
    let google_api_key := getenv "GOOGLE_API_KEY" in
    if truthy google_api_key then
      _ ← new_GeminiLLM;
      Ok GeminiLLM
    else
      try_except (_ ← new_LocalLLM; Ok LocalLLM)
                 (fun _ => Ok SimpleLLM).

Definition __init__ : result RAGPipeline :=
  vs ← VectorStoreManager;
  backend ← init_llm;
  Ok {| vector_store := vs; llm := backend |}.

(** [self.llm.generate(prompt)] and [self.llm.generate(prompt,
    language=...)]: [SimpleLLM] declares [language='en']. *)
Definition llm_generate (backend : LLM) (prompt : pystr) (language : option pystr)
  : result pystr :=
  match backend with
  | SimpleLLM =>
      SimpleLLM.generate translate prompt (Some (default (str "en") language))
  | _ => model_generate backend prompt language
  end.

(** Lines 75-79 of [generate_response]. *)
Definition resolve_language (language : option pystr) (query : pystr)
  : result pystr :=
  if negb (truthy language) then
    try_except (detect query) (fun _ => Ok (str "en"))
  else Ok (default [] language).

Definition hindi_prompt_head : pystr :=
  [2310; 2346; 32; 2319; 2325; 32; 2360; 2361; 2366; 2351; 2325; 32; 2319;
   2310; 2312; 32; 2361; 2376; 2306; 2404; 32; 2344; 2368; 2330; 2375; 32;
   2342; 2367; 2319; 32; 2327; 2319; 32; 2360; 2306; 2342; 2352; 2381; 2349;
   32; 2325; 2366; 32; 2313; 2346; 2351; 2379; 2327; 32; 2325; 2352; 2325;
   2375; 32; 2331; 2366; 2340; 2381; 2352; 32; 2325; 2375; 32; 2346; 2381;
   2352; 2358; 2381; 2344; 32; 2325; 2366; 32; 2313; 2340; 2381; 2340; 2352;
   32; 2342; 2375; 2306; 2404; 32; 10; 2351; 2342; 2367; 32; 2313; 2340;
   2381; 2340; 2352; 32; 2360; 2306; 2342; 2352; 2381; 2349; 32; 2350; 2375;
   2306; 32; 2344; 2361; 2368; 2306; 32; 2361; 2376; 44; 32; 2340; 2379; 32;
   2325; 2361; 2375; 2306; 32; 34; 2350; 2369; 2333; 2375; 32; 2344; 2361;
   2368; 2306; 32; 2346; 2340; 2366; 34; 2404; 10; 10; 2360; 2306; 2342;
   2352; 2381; 2349; 58; 10]%N.
Definition hindi_prompt_question : pystr :=
  [10; 10; 2346; 2381; 2352; 2358; 2381; 2344; 58; 32]%N.
Definition hindi_prompt_answer : pystr :=
  [10; 2313; 2340; 2381; 2340; 2352; 58]%N.

Definition english_prompt_head : pystr :=
  Py.join LF
    [ str "You are a helpful AI assistant for students. Answer the student's question using only the provided context. ";
      str "If the answer is not in the context, say " ++ DQUOTE
        ++ str "I don't know" ++ DQUOTE ++ str ". ";
      str "Always provide a clear and simple explanation suitable for students.";
      [];
      str "Context:";
      [] ].

Definition _build_prompt (query context lang : pystr) : pystr :=
  if Py.eqb lang (str "hi") then
    hindi_prompt_head ++ context ++ hindi_prompt_question ++ query
      ++ hindi_prompt_answer
  else
    english_prompt_head ++ context ++ LF ++ LF ++ str "Question: " ++ query
      ++ LF ++ str "Answer:".

Definition not_found : pystr :=
  str "I am sorry, but I don't have information about that in my NCERT knowledge base.".

(** Lines 111-118: one dictionary appended per passage. *)
Definition citation (doc : Document) : pyval :=
  PDict {[ "source" := Py.get (metadata doc) "filename" (PStr (str "Unknown"));
           "page" := Py.get (metadata doc) "page" (PStr (str "?"));
           "grade" := Py.get (metadata doc) "grade" (PStr (str "?"));
           "subject" := Py.get (metadata doc) "subject" (PStr (str "?")) ]}.

Definition collect_citations (docs : list Document) : list pyval :=
  foldl (fun citations doc => citations ++ [citation doc]) [] docs.

Definition generate_response (self : RAGPipeline) (query : pystr)
    (grade subject filename language : option pystr)
  : result (gmap string pyval) :=
  language ← resolve_language language query;
  let filters : gmap string pyval :=
    if truthy filename then {[ "filename" := PStr (default [] filename) ]}
    else ∅ in
  let namespace := subject_grade_namespace subject grade in
  docs ← vector_store self query namespace 3
           (if bool_decide (filters = ∅) then None else Some filters);
  match docs with
  | [] =>
      Ok {[ "answer" := PStr not_found; "citations" := PList [] ]}
  | _ :: _ =>
      let context := Py.join passage_separator (map page_content docs) in
      let prompt := _build_prompt query context language in
      response_text ← llm_generate (llm self) prompt (Some language);
      let citations := collect_citations docs in
      Ok {[ "answer" := PStr response_text;
            "citations" := PList citations;
            "response_language" := PStr language ]}
  end.

End pipeline.
End Pipeline.

(** ** [src/api/main.py]: the [/assessment] endpoint *)

Record QueryRequest := {
  query : pystr;
  grade : option pystr;
  subject : option pystr;
  filename : option pystr;
  conversation_id : option pystr;
  language : option pystr;
}.

Module Api.
Section api.

(** What [RAGPipeline()] and [pipe.llm.generate] depend on. *)
Variable environ : gmap string pystr.
Variable VectorStoreManager : result VectorStore.
Variable new_OllamaLLM : pystr → result unit.
Variable new_GeminiLLM : result unit.
Variable new_LocalLLM : result unit.
Variable model_generate : LLM → pystr → option pystr → result pystr.
Variable translate : pystr → pystr → result pystr.
(** [json.loads] *)
Variable json_loads : pystr → result pyval.

(** [get_pipeline()]: the second component is the module-level variable
    [pipeline] afterwards. *)
Definition get_pipeline (pipeline : option RAGPipeline)
  : result RAGPipeline * option RAGPipeline :=
  match pipeline with
  | Some pipe => (Ok pipe, pipeline)
  | None =>
      match Pipeline.__init__ environ VectorStoreManager
              new_OllamaLLM new_GeminiLLM new_LocalLLM with
      | Ok pipe => (Ok pipe, Some pipe)
      | Raise e => (Raise e, None)
      end
  end.

Definition dq (parts : list string) : pystr := Py.join DQUOTE (map str parts).

Definition assessment_prompt_head : pystr :=
  Py.join LF
    [ str "You are an educational assessment expert for NCERT curriculum. ";
      str "Using the context below, generate high-quality study materials for a student.";
      [];
      str "Context:";
      [] ].

Definition assessment_prompt_tail : pystr :=
  Py.join LF
    [ [];
      [];
      str "Output strictly in JSON format with the following structure:";
      str "{";
      dq ["  "; "topic"; ": "; "The main topic name"; ","];
      dq ["  "; "flashcards"; ": ["];
      dq ["    {"; "q"; ": "; "Question/Term"; ", "; "a"; ": ";
          "Concise answer/definition"; "},"];
      str "    ... (at least 4)";
      str "  ],";
      dq ["  "; "quiz"; ": ["];
      str "    {";
      dq ["      "; "q"; ": "; "Multiple choice question"; ","];
      dq ["      "; "options"; ": ["; "Option A"; ", "; "Option B"; ", ";
          "Option C"; ", "; "Option D"; "],"];
      dq ["      "; "correct"; ": "; "Exact string of the correct option";
          EmptyString];
      str "    },";
      str "    ... (at least 3)";
      str "  ]";
      str "}";
      [];
      str "Ensure questions are diverse and cover key concepts from the context.";
      [] ].

(** Lines 252-256: a Markdown fence around the JSON is removed. *)
Definition strip_fence (raw_response : pystr) : result pystr :=
  let clean_json := Py.strip raw_response in
  if Py.startswith clean_json (str "```json") then
    after ← Py.index (Py.split (str "```json") clean_json) 1;
    inner ← Py.index (Py.split (str "```") after) 0;
    Ok (Py.strip inner)
  else if Py.startswith clean_json (str "```") then
    after ← Py.index (Py.split (str "```") clean_json) 1;
    inner ← Py.index (Py.split (str "```") after) 0;
    Ok (Py.strip inner)
  else Ok clean_json.

Definition no_content : exn :=
  HTTPException 404 (str "No content found to generate assessment.").

(** Lines 262-268: what the [except Exception] handler returns. *)
Definition assessment_fallback (request : QueryRequest) : pyval :=
  PDict {[ "topic" :=
             PStr (if truthy (subject request) then default [] (subject request)
                   else str "Study Session");
           "flashcards" :=
             PList [ PDict {[ "q" := PStr (str "Error generating flashcards");
                              "a" := PStr (str "Please try a more specific topic.") ]} ];
           "quiz" := PList [] ]}.

(** The body of the [try] block, from line 205 on. *)
Definition assessment_body (pipe : RAGPipeline) (request : QueryRequest)
  : result pyval :=
  let namespace := subject_grade_namespace (subject request) (grade request) in
  let filters : option (gmap string pyval) :=
    if truthy (filename request)
    then Some {[ "filename" := PStr (default [] (filename request)) ]}
    else None in
  docs ← vector_store pipe (query request) namespace 8 filters;
  docs ← match docs with
         | [] =>
             vector_store pipe
               (if truthy (subject request) then default [] (subject request)
                else str "NCERT")
               namespace 8 filters
         | _ :: _ => Ok docs
         end;
  _ ← match docs with
      | [] => Raise no_content
      | _ :: _ => Ok tt
      end;
  let context := Py.join passage_separator (map page_content docs) in
  let prompt := assessment_prompt_head ++ context ++ assessment_prompt_tail in
  raw_response ← Pipeline.llm_generate model_generate translate (llm pipe) prompt None;
  clean_json ← strip_fence raw_response;
  json_loads clean_json.

(** [generate_assessment(request)]; the module-level [pipeline] goes in
    and comes out. *)
Definition generate_assessment (pipeline : option RAGPipeline)
    (request : QueryRequest) : result pyval * option RAGPipeline :=
  let '(pipe, pipeline) := get_pipeline pipeline in
  (try_except (pipe ← pipe; assessment_body pipe request)
              (fun _ => Ok (assessment_fallback request)),
   pipeline).

(** *** The [/chat] endpoint (lines 62-75) *)

(** [langdetect.detect], which [generate_response] may call. *)
Variable detect : pystr → result pystr.
(** [str(e)] *)
Variable exn_str : exn → pystr.

Definition chat (pipeline : option RAGPipeline) (request : QueryRequest)
  : result (gmap string pyval) * option RAGPipeline :=
  let '(pipe, pipeline) := get_pipeline pipeline in
  (try_except
     (pipe ← pipe;
      Pipeline.generate_response model_generate translate detect pipe
        (query request) (grade request) (subject request) (filename request)
        (language request))
     (fun e => Raise (HTTPException 500 (exn_str e))),
   pipeline).

(** *** The [/mission] endpoint (lines 269-318) *)

(** Python floats and their rendering inside an f-string. *)
Variable float : Type.
Variable float_str : float → pystr.
(** [json.dumps] *)
Variable json_dumps : pyval → result pystr.

Record MissionRequest := {
  displayName : pystr;
  readiness : float;
  subjects_mastery : gmap string pyval;
  recent_activity : list (gmap string pyval);
  persona : pystr;
}.

Definition mission_prompt_head : pystr :=
  Py.join LF
    [ str "You are an expert academic coach. Based on the student stats below, generate ONE high-impact 'Daily Mission' to help them improve.";
      str "        ";
      str "        " ].

Definition mission_prompt_tail : pystr :=
  Py.join LF
    [ [];
      str "        ";
      str "        Requirements:";
      str "        1. Be specific (mention a subject or concept based on their low mastery).";
      str "        2. Be encouraging but direct.";
      str "        3. Output strictly in JSON format:";
      str "        {";
      dq ["          "; "mission_title"; ": "; "Short catchy title"; ","];
      dq ["          "; "description"; ": "; "Specific action to take"; ","];
      dq ["          "; "target_subject"; ": "; "Science/Math/etc"; ","];
      dq ["          "; "reward_points"; ": 50"];
      str "        }";
      str "        " ].

(** Lines 277-283; the two [json.dumps] calls run in this order. *)
Definition stats_context (request : MissionRequest) : result pystr :=
  mastery ← json_dumps (PDict (subjects_mastery request));
  activity ← json_dumps (PList (map PDict (take 3 (recent_activity request))));
  Ok (LF ++ str "        Student: " ++ displayName request
      ++ LF ++ str "        Persona: " ++ persona request
      ++ LF ++ str "        Current Readiness: " ++ float_str (readiness request)
      ++ str "%" ++ LF ++ str "        Subject Mastery: " ++ mastery
      ++ LF ++ str "        Recent Activity: " ++ activity
      ++ LF ++ str "        ").

(** Lines 311-318: what the [except Exception] handler returns. *)
Definition mission_fallback : pyval :=
  PDict {[ "mission_title" := PStr (str "Concept Deep Dive");
           "description" :=
             PStr (str "Re-examine your last studied chapter to solidify understanding.");
           "target_subject" := PStr (str "General");
           "reward_points" := PInt 20 ]}.

(** The body of the [try] block after [get_pipeline()]; lines 304-308
    are the fence removal of the assessment endpoint again. *)
Definition mission_body (pipe : RAGPipeline) (request : MissionRequest)
  : result pyval :=
  stats ← stats_context request;
  let prompt := mission_prompt_head ++ stats ++ mission_prompt_tail in
  raw_response ← Pipeline.llm_generate model_generate translate (llm pipe) prompt None;
  clean_json ← strip_fence raw_response;
  json_loads clean_json.

Definition generate_mission (pipeline : option RAGPipeline)
    (request : MissionRequest) : result pyval * option RAGPipeline :=
  let '(pipe, pipeline) := get_pipeline pipeline in
  (try_except (pipe ← pipe; mission_body pipe request)
              (fun _ => Ok mission_fallback),
   pipeline).

End api.
End Api.

(** ** [src/api/main.py]: the subject labels of [get_library] *)
Module Library.

(** Lines 120-139. *)
Definition subject_mapping : gmap pystr pystr :=
  list_to_map
    [ (str "English", str "English"); (str "english", str "English");
      (str "EVS", str "Science"); (str "evs", str "Science");
      (str "Science", str "Science"); (str "science", str "Science");
      (str "Maths", str "Mathematics"); (str "maths", str "Mathematics");
      (str "Mathematics", str "Mathematics"); (str "mathematics", str "Mathematics");
      (str "Hindi", str "Hindi"); (str "hindi", str "Hindi");
      (str "Social", str "Social Science"); (str "social", str "Social Science");
      (str "History", str "Social Science"); (str "history", str "Social Science");
      (str "Geography", str "Social Science"); (str "geography", str "Social Science") ].

(** [subject_mapping.get(folder, folder)], lines 157 and 166. *)
Definition subject_label (folder : pystr) : pystr :=
  default folder (subject_mapping !! folder).

End Library.

(** ** [tools/build_processed.py] *)
Module Tools.
Section names.

(** [str.isalnum] on one character. *)
Variable isalnum : N → bool.

(** [make_safe_name(s)], line 21. *)
Definition make_safe_name (s : pystr) : pystr :=
  Py.replace_char 32%N 95%N
    (map (fun c => if isalnum c || (c =? 32)%N || (c =? 95)%N || (c =? 45)%N
                   then c else 95%N) s).

End names.
End Tools.

(** ** The design document's wording, for comparison *)

(** Section 4.2, step 1: everything after the first occurrence of the
    marker when there is one, the whole prompt otherwise. *)
Definition spec_candidate_context (prompt : pystr) : pystr :=
  match Py.partition (str "Context:") prompt with
  | Some (_, after) => after
  | None => prompt
  end.

(** Section 4.2, step 2: a stripped line qualifies when it is non-empty,
    longer than 15 characters and not a line consisting of dashes. *)
Definition consists_of_dashes (s : pystr) : bool := forallb (N.eqb 45%N) s.

Definition spec_qualifies (s : pystr) : bool :=
  match s with [] => false | _ => true end
  && (15 <? length s) && negb (consists_of_dashes s).

(** ** Sample collaborators and inputs *)

(** A machine without the [translate] package. *)
Definition no_translator : pystr → pystr → result pystr :=
  fun _ _ => Raise (Exception (str "No module named 'translate'")).

(** A detector that gives up on empty text and says English otherwise. *)
Definition sample_detect : pystr → result pystr :=
  fun text => match text with
              | [] => Raise (Exception (str "No features in text."))
              | _ :: _ => Ok (str "en")
              end.

(** A vector store with nothing indexed. *)
Definition empty_store : VectorStore := fun _ _ _ _ => Ok [].

(** No model backend answers. *)
Definition no_model : LLM → pystr → option pystr → result pystr :=
  fun _ _ _ => Raise (Exception (str "model backend unreachable")).

Definition revolt_passage : pystr :=
  str "Historical Context: the revolt of 1857 began in Meerut.".

Definition revolt_prompt : pystr :=
  Pipeline._build_prompt (str "When did the revolt begin?") revolt_passage (str "en").

Definition heading_line : pystr := str "--- Chapter 4: The water cycle ---".

Definition water_context : pystr :=
  str "
   Water evaporates from the sea.
---
ok
Clouds form when vapour cools down.".

Definition water_prompt : pystr := str "Context:" ++ water_context.

(** One line of 500 letters [a], no space. *)
Definition unbroken_prompt : pystr := repeat 97%N 500.

(** One line of 460 characters made of words. *)
Definition wordy_prompt : pystr :=
  str "Context:" ++ LF ++ concat (repeat (str "green plants make food ") 20).

(** A pipeline on the empty store with the extractive fallback. *)
Definition empty_pipeline : RAGPipeline :=
  {| vector_store := empty_store; llm := SimpleLLM |}.

(** Two passages, the second one without metadata. *)
Definition leaf_doc : Document :=
  {| page_content := str "Leaves make food for the plant using sunlight.";
     metadata := {[ "filename" := PStr (str "science6.pdf"); "page" := PInt 12;
                    "grade" := PStr (str "6"); "subject" := PStr (str "Science") ]} |}.

Definition bare_doc : Document :=
  {| page_content := str "Roots take in water from the soil."; metadata := ∅ |}.

Definition two_doc_pipeline : RAGPipeline :=
  {| vector_store := fun _ _ _ _ => Ok [leaf_doc; bare_doc]; llm := SimpleLLM |}.

(** Both variables set, and a local runtime that cannot be reached. *)
Definition both_configured : gmap string pystr :=
  {[ "OLLAMA_MODEL" := str "llama3"; "GOOGLE_API_KEY" := str "secret" ]}.

Definition unreachable : result unit :=
  Raise (Exception (str "connection refused")).

Definition science_request : QueryRequest :=
  {| query := str "photosynthesis"; grade := Some (str "6");
     subject := Some (str "Science"); filename := None;
     conversation_id := None; language := Some (str "en") |}.

Definition strict_json : pystr → result pyval :=
  fun _ => Raise (Exception (str "Expecting value")).

(** A model reply with the JSON inside a Markdown fence, and one inside
    a plain fence. *)
Definition fenced_body : pystr := LF ++ str "[1, 2, 3]" ++ LF.

Definition fenced_reply : pystr :=
  str "  ```json" ++ fenced_body ++ str "```" ++ LF.

Definition plain_fenced_reply : pystr := str "```" ++ fenced_body ++ str "```".

(** A parser that knows one document. *)
Definition tiny_json : pystr → result pyval :=
  fun text => if Py.eqb text (str "[1, 2, 3]")
              then Ok (PList [PInt 1; PInt 2; PInt 3])
              else Raise (Exception (str "Expecting value")).

(** A remote model that always sends the fenced reply. *)
Definition fenced_model : LLM → pystr → option pystr → result pystr :=
  fun _ _ _ => Ok fenced_reply.

Definition leaf_store : VectorStore := fun _ _ _ _ => Ok [leaf_doc].

(** A store that only knows the subject name. *)
Definition subject_only_store : VectorStore :=
  fun q _ _ _ => if Py.eqb q (str "Science") then Ok [leaf_doc] else Ok [].

Definition broken_store : VectorStore :=
  fun _ _ _ _ => Raise (Exception (str "index not reachable")).

Definition sample_exn_str (e : exn) : pystr :=
  match e with
  | Exception msg => msg
  | HTTPException _ detail => detail
  | IndexError => str "list index out of range"
  end.

Definition sample_dumps : pyval → result pystr := fun _ => Ok (str "{}").

Definition sample_mission : Api.MissionRequest Z :=
  Api.Build_MissionRequest Z (str "Asha") 62%Z ∅ [∅; ∅; ∅; ∅; ∅] (str "explorer").

Definition subject_only_pipeline : RAGPipeline :=
  {| vector_store := subject_only_store; llm := SimpleLLM |}.

Definition leaf_pipeline : RAGPipeline :=
  {| vector_store := leaf_store; llm := SimpleLLM |}.

Definition gemini_leaf_pipeline : RAGPipeline :=
  {| vector_store := leaf_store; llm := GeminiLLM |}.

Definition broken_pipeline : RAGPipeline :=
  {| vector_store := broken_store; llm := SimpleLLM |}.

(** A store partitioned by namespace and filtered by file name: it
    answers only for [Science_6] restricted to [science6.pdf]. *)
Definition partitioned_store : VectorStore :=
  fun _ namespace _ filters =>
    match namespace, filters with
    | Some ns, Some flt =>
        match flt !! "filename" with
        | Some (PStr name) =>
            if Py.eqb ns (str "Science_6") && Py.eqb name (str "science6.pdf")
            then Ok [leaf_doc; bare_doc] else Ok []
        | _ => Ok []
        end
    | _, _ => Ok []
    end.

Definition partitioned_pipeline : RAGPipeline :=
  {| vector_store := partitioned_store; llm := SimpleLLM |}.

Definition gemini_subject_pipeline : RAGPipeline :=
  {| vector_store := subject_only_store; llm := GeminiLLM |}.

(** * Properties *)

(** ** The string primitives *)

Example split_cuts_everywhere :
  Py.split (str "ab") (str "xxabyyababzab") = [str "xx"; str "yy"; []; str "z"; []].
Proof. reflexivity. Qed.

Example split_without_separator :
  Py.split (str "Context:") (str "no marker here") = [str "no marker here"].
Proof. reflexivity. Qed.

Example rsplit1_cuts_last :
  Py.rsplit1 (str " ") (str "hello big world") = [str "hello big"; str "world"]
  ∧ Py.rsplit1 (str " ") (str "helloworld") = [str "helloworld"].
Proof. split; reflexivity. Qed.

Example strip_both_ends :
  Py.strip (LF ++ str "   two words  " ++ LF) = str "two words".
Proof. reflexivity. Qed.

Example namespace_examples :
  subject_grade_namespace (Some (str "Social Science")) (Some (str "5"))
  = Some (str "Social_Science_5")
  ∧ subject_grade_namespace None (Some (str "5")) = None.
Proof. split; reflexivity. Qed.

Lemma startswith_spec (s pre : pystr) :
  Py.startswith s pre = true ↔ ∃ t, s = pre ++ t.
Proof.
  revert s. induction pre as [|p pre IH]; intros s; simpl.
  - split; [intros _; by exists s | done].
  - destruct s as [|c s].
    + split; [done | intros [t Ht]; discriminate].
    + rewrite andb_true_iff, N.eqb_eq, IH. split.
      * intros [-> [t ->]]. by exists t.
      * intros [t Ht]. injection Ht as -> ->. eauto.
Qed.

Lemma partition_Some (sep s a b : pystr) :
  Py.partition sep s = Some (a, b) → s = a ++ sep ++ b.
Proof.
  revert a. induction s as [|c s IH]; intros a; simpl.
  - destruct (Py.startswith [] sep) eqn:Hs; [|done].
    intros [= <- <-]. apply startswith_spec in Hs as [t Ht].
    symmetry in Ht. apply app_eq_nil in Ht as [-> ->]. done.
  - destruct (Py.startswith (c :: s) sep) eqn:Hs.
    + intros [= <- <-]. apply startswith_spec in Hs as [t Ht].
      rewrite Ht at 1. simpl. f_equal. rewrite Ht.
      by rewrite drop_app_length.
    + destruct (Py.partition sep s) as [[a' b']|] eqn:Hp; [|done].
      intros [= <- <-]. simpl. f_equal. by apply IH.
Qed.

Lemma partition_shorter (sep s a b : pystr) :
  sep ≠ [] → Py.partition sep s = Some (a, b) → length b < length s.
Proof.
  intros Hsep Hp. apply partition_Some in Hp as ->.
  rewrite !length_app. destruct sep; [done | simpl; lia].
Qed.

Lemma partition_nil (sep : pystr) : sep ≠ [] → Py.partition sep [] = None.
Proof.
  intros Hsep. destruct (Py.partition sep []) as [[a b]|] eqn:Hp; [|done].
  apply partition_shorter in Hp; [simpl in Hp; lia | done].
Qed.

(** Any fuel that covers the string gives the same cuts. *)
Lemma split_fuel_enough (sep : pystr) (n m : nat) (s : pystr) :
  sep ≠ [] → length s ≤ n → length s ≤ m →
  Py.split_fuel n sep s = Py.split_fuel m sep s.
Proof.
  intros Hsep. revert m s. induction n as [|n IH]; intros m s Hn Hm.
  - destruct s; [|simpl in Hn; lia].
    destruct m; cbn [Py.split_fuel]; [done|]. by rewrite partition_nil.
  - destruct m as [|m]; cbn [Py.split_fuel].
    + destruct s; [|simpl in Hm; lia]. by rewrite partition_nil.
    + destruct (Py.partition sep s) as [[a b]|] eqn:Hp; [|done].
      f_equal. pose proof (partition_shorter _ _ _ _ Hsep Hp).
      apply IH; lia.
Qed.

Lemma split_unfold (sep s : pystr) :
  sep ≠ [] →
  Py.split sep s =
  match Py.partition sep s with
  | None => [s]
  | Some (a, b) => a :: Py.split sep b
  end.
Proof.
  intros Hsep. unfold Py.split. destruct s as [|c s].
  - cbn [length Py.split_fuel]. by rewrite partition_nil.
  - cbn [length Py.split_fuel].
    destruct (Py.partition sep (c :: s)) as [[a b]|] eqn:Hp; [|done].
    f_equal. pose proof (partition_shorter _ _ _ _ Hsep Hp) as Hlt.
    simpl in Hlt. apply split_fuel_enough; [done | lia | lia].
Qed.

(** One-character separators: the cut is at the first occurrence. *)
Lemma partition_char_Some (c : N) (s a b : pystr) :
  Py.partition [c] s = Some (a, b) → s = a ++ c :: b ∧ c ∉ a.
Proof.
  revert a. induction s as [|x s IH]; intros a; simpl; [done|].
  destruct (c =? x)%N eqn:Hc; simpl.
  - intros [= <- <-]. apply N.eqb_eq in Hc as ->. split; [done|].
    apply not_elem_of_nil.
  - destruct (Py.partition [c] s) as [[a' b']|] eqn:Hp; [|done].
    intros [= <- <-]. destruct (IH a' eq_refl) as [-> Hn].
    split; [done|]. apply N.eqb_neq in Hc.
    rewrite elem_of_cons. intros [?|?]; [congruence | done].
Qed.

Lemma partition_char_None (c : N) (s : pystr) :
  Py.partition [c] s = None → c ∉ s.
Proof.
  induction s as [|x s IH]; simpl; [intros _; apply not_elem_of_nil|].
  destruct (c =? x)%N eqn:Hc; simpl; [done|].
  destruct (Py.partition [c] s) as [[a' b']|] eqn:Hp; [done|].
  intros _. apply N.eqb_neq in Hc.
  rewrite elem_of_cons. intros [?|?]; [congruence | by apply IH].
Qed.

(** [rsplit(c, 1)] cuts at the last occurrence of the character. *)
Lemma rsplit1_char (c : N) (s : pystr) :
  c ∈ s →
  ∃ p r, s = p ++ c :: r ∧ (c ∉ r) ∧ Py.rsplit1 [c] s = [p; r].
Proof.
  intros Hin. unfold Py.rsplit1. change (reverse [c]) with [c].
  destruct (Py.partition [c] (reverse s)) as [[a b]|] eqn:Hp.
  - apply partition_char_Some in Hp as [Hs Hn].
    exists (reverse b), (reverse a).
    split_and!; [|by rewrite elem_of_reverse |done].
    rewrite <- (reverse_involutive s), Hs, reverse_app, reverse_cons.
    by rewrite <- app_assoc.
  - apply partition_char_None in Hp. by rewrite elem_of_reverse in Hp.
Qed.

Lemma rsplit1_char_absent (c : N) (s : pystr) :
  c ∉ s → Py.rsplit1 [c] s = [s].
Proof.
  intros Hn. unfold Py.rsplit1. change (reverse [c]) with [c].
  destruct (Py.partition [c] (reverse s)) as [[a b]|] eqn:Hp; [|done].
  apply partition_char_Some in Hp as [Hs _]. exfalso. apply Hn.
  rewrite <- (reverse_involutive s), Hs, elem_of_reverse, elem_of_app, elem_of_cons.
  auto.
Qed.

(** ** [SimpleLLM.generate] *)

Lemma marker_nonempty : str "Context:" ≠ [].
Proof. discriminate. Qed.

(** What lines 34-38 select: the text between the first occurrence of
    the marker and the next one. *)
Lemma extract_context_eq (prompt : pystr) :
  SimpleLLM.extract_context prompt =
  Ok match Py.partition (str "Context:") prompt with
     | None => prompt
     | Some (_, after) =>
         match Py.partition (str "Context:") after with
         | None => after
         | Some (between, _) => between
         end
     end.
Proof.
  unfold SimpleLLM.extract_context.
  rewrite (split_unfold _ prompt marker_nonempty).
  destruct (Py.partition (str "Context:") prompt) as [[a b]|]; [|done].
  rewrite (split_unfold _ b marker_nonempty).
  by destruct (Py.partition (str "Context:") b) as [[c d]|].
Qed.

Lemma extract_context_total (prompt : pystr) :
  ∃ ctx, SimpleLLM.extract_context prompt = Ok ctx.
Proof. rewrite extract_context_eq. eauto. Qed.

(** The loop of lines 42-45 from any value of [sentences]. *)
Lemma collect_loop (sentences : list pystr) (lines : list pystr) :
  foldl (fun sentences line =>
           let s := Py.strip line in
           if SimpleLLM.keeps s then sentences ++ [s] else sentences)
        sentences lines
  = sentences ++ List.filter SimpleLLM.keeps (map Py.strip lines).
Proof.
  revert sentences. induction lines as [|line lines IH]; intros sentences; simpl.
  - by rewrite app_nil_r.
  - rewrite IH. destruct (SimpleLLM.keeps (Py.strip line)); [|done].
    by rewrite <- app_assoc.
Qed.

Lemma collect_sentences_filter (ctx : pystr) :
  SimpleLLM.collect_sentences ctx =
  List.filter SimpleLLM.keeps (map Py.strip (Py.split LF ctx)).
Proof. apply collect_loop. Qed.

Lemma rsplit1_nonempty (sep s : pystr) :
  ∃ first rest, Py.rsplit1 sep s = first :: rest.
Proof.
  unfold Py.rsplit1.
  destruct (Py.partition (reverse sep) (reverse s)) as [[a b]|]; eauto.
Qed.

Lemma shorten_total (answer : pystr) :
  ∃ out, SimpleLLM.shorten answer = Ok out.
Proof.
  unfold SimpleLLM.shorten. destruct (400 <? length answer); [|eauto].
  destruct (rsplit1_nonempty (str " ") (take 400 answer)) as (first & rest & ->).
  simpl. eauto.
Qed.

Lemma localise_total translate (language : option pystr) (answer : pystr) :
  ∃ out, SimpleLLM.localise translate language answer = Ok out.
Proof.
  unfold SimpleLLM.localise. destruct (SimpleLLM.wants_translation language); [|eauto].
  destruct (translate (default [] language) answer); simpl; eauto.
Qed.

Lemma generate_total translate (prompt : pystr) (language : option pystr) :
  ∃ out, SimpleLLM.generate translate prompt language = Ok out.
Proof.
  unfold SimpleLLM.generate.
  destruct (try_except _ _) as [[answer|]|e] eqn:Htry; eauto.
  unfold try_except in Htry.
  by destruct (SimpleLLM.generate_body translate prompt language).
Qed.

(** The output on a context with at least one kept line. *)
Lemma generate_some translate (prompt : pystr) (language : option pystr)
    (ctx answer out : pystr) :
  SimpleLLM.extract_context prompt = Ok ctx →
  SimpleLLM.collect_sentences ctx ≠ [] →
  SimpleLLM.shorten (SimpleLLM.joined (SimpleLLM.collect_sentences ctx)) = Ok answer →
  SimpleLLM.localise translate language answer = Ok out →
  SimpleLLM.generate translate prompt language = Ok out.
Proof.
  intros Hctx Hne Hshort Hloc. unfold SimpleLLM.generate, SimpleLLM.generate_body.
  rewrite Hctx. simpl.
  destruct (SimpleLLM.collect_sentences ctx) as [|s1 rest]; [done|].
  rewrite Hshort. simpl. by rewrite Hloc.
Qed.

Lemma filter_none {A} (f : A → bool) (l : list A) :
  Forall (fun x => f x = false) l → List.filter f l = [].
Proof.
  induction 1 as [|x l Hx _ IH]; simpl; [done|]. by rewrite Hx.
Qed.

(** C4, at a prompt the pipeline builds: the retrieved passage itself
    contains the marker, so the context stops at the passage's first word,
    no line is kept and the passage is not used; everything after the
    first marker would have been the passage, the question and the answer
    cue. *)
Theorem context_stops_at_second_marker :
  SimpleLLM.extract_context revolt_prompt = Ok (LF ++ str "Historical ")
  ∧ spec_candidate_context revolt_prompt
    = LF ++ revolt_passage ++ LF ++ LF
        ++ str "Question: When did the revolt begin?" ++ LF ++ str "Answer:"
  ∧ SimpleLLM.generate no_translator revolt_prompt (Some (str "en"))
    = Ok SimpleLLM.canonical.
Proof. split_and!; vm_compute; reflexivity. Qed.

(** Where the marker is absent the context is the whole prompt, and where
    it occurs once the context is everything after it. *)
Lemma extract_context_at_most_one_marker (prompt : pystr) :
  match Py.partition (str "Context:") prompt with
  | None => SimpleLLM.extract_context prompt = Ok prompt
  | Some (_, after) =>
      Py.partition (str "Context:") after = None →
      SimpleLLM.extract_context prompt = Ok (spec_candidate_context prompt)
  end.
Proof.
  rewrite extract_context_eq. unfold spec_candidate_context.
  destruct (Py.partition (str "Context:") prompt) as [[a b]|]; [|done].
  by intros ->.
Qed.

(** C5, as stated, fails twice.  On a joined answer of 500 characters
    without a space nothing is trimmed and the period makes 401
    characters.  With a language other than English the shortened answer
    is translated, or followed by the note as here, before it is
    returned. *)
Lemma shortened_answer_over_limit :
  (length (SimpleLLM.joined (SimpleLLM.collect_sentences unbroken_prompt)) = 500
   ∧ SimpleLLM.generate no_translator unbroken_prompt (Some (str "en"))
     = Ok (repeat 97%N 400 ++ str ".")
   ∧ ¬ length (repeat 97%N 400 ++ str ".") ≤ 400)
  ∧ (400 < length (SimpleLLM.joined (SimpleLLM.collect_sentences
                                       (LF ++ concat (repeat (str "green plants make food ") 20))))
     ∧ ∃ out, SimpleLLM.generate no_translator wordy_prompt (Some (str "hi")) = Ok out
              ∧ ¬ length out ≤ 400 ∧ last out ≠ Some 46%N).
Proof.
  split; split_and!; [vm_compute; reflexivity .. | vm_compute; lia | vm_compute; lia |].
  eexists. split_and!; [vm_compute; reflexivity | vm_compute; lia | vm_compute; discriminate].
Qed.

(** C5, amended: without translation, when the first 400 characters of
    the joined answer contain a space, the output is the text before the
    last such space followed by a period, at most 400 characters long. *)
Theorem truncation_at_last_space translate (prompt : pystr)
    (language : option pystr) (ctx : pystr) :
  SimpleLLM.extract_context prompt = Ok ctx →
  SimpleLLM.wants_translation language = false →
  400 < length (SimpleLLM.joined (SimpleLLM.collect_sentences ctx)) →
  32%N ∈ take 400 (SimpleLLM.joined (SimpleLLM.collect_sentences ctx)) →
  ∃ kept dropped,
    take 400 (SimpleLLM.joined (SimpleLLM.collect_sentences ctx))
      = kept ++ 32%N :: dropped
    ∧ (32%N ∉ dropped)
    ∧ SimpleLLM.generate translate prompt language = Ok (kept ++ str ".")
    ∧ length (kept ++ str ".") ≤ 400.
Proof.
  intros Hctx Hlang Hlong Hspace.
  destruct (rsplit1_char _ _ Hspace) as (kept & dropped & Hcut & Hlast & Hsplit).
  exists kept, dropped. split_and!; [done | done | |].
  - apply (generate_some _ _ _ ctx (kept ++ str ".")); [done | | |].
    + intros Hnil. rewrite Hnil in Hlong. simpl in Hlong. lia.
    + unfold SimpleLLM.shorten. apply Nat.ltb_lt in Hlong as ->.
      change (str " ") with [32%N]. by rewrite Hsplit.
    + unfold SimpleLLM.localise. by rewrite Hlang.
  - pose proof (length_take_le (SimpleLLM.joined (SimpleLLM.collect_sentences ctx)) 400) as Hle.
    rewrite Hcut in Hle. rewrite length_app in *. simpl in *. lia.
Qed.

Lemma truncation_at_last_space_witness :
  ∃ kept dropped,
    take 400 (SimpleLLM.joined (SimpleLLM.collect_sentences
                                  (LF ++ concat (repeat (str "green plants make food ") 20))))
      = kept ++ 32%N :: dropped
    ∧ (32%N ∉ dropped)
    ∧ SimpleLLM.generate no_translator wordy_prompt (Some (str "en"))
      = Ok (kept ++ str ".")
    ∧ length (kept ++ str ".") ≤ 400.
Proof.
  apply (truncation_at_last_space no_translator wordy_prompt (Some (str "en"))).
  - vm_compute; reflexivity.
  - vm_compute; reflexivity.
  - vm_compute; lia.
  - apply (bool_decide_unpack _). vm_compute. exact I.
Defined.

(** C6, as stated, fails on a heading that starts with dashes: it is not
    a line of dashes, yet line 44 drops it. *)
Lemma dashed_heading_dropped :
  spec_qualifies heading_line = true
  ∧ SimpleLLM.keeps heading_line = false
  ∧ SimpleLLM.generate no_translator heading_line (Some (str "en"))
    = Ok SimpleLLM.canonical.
Proof. split_and!; vm_compute; reflexivity. Qed.

Lemma keeps_spec (s : pystr) :
  SimpleLLM.keeps s = true
  ↔ s ≠ [] ∧ 15 < length s ∧ ¬ ∃ rest, s = str "---" ++ rest.
Proof.
  unfold SimpleLLM.keeps.
  rewrite !andb_true_iff, negb_true_iff, Nat.ltb_lt.
  rewrite <- (startswith_spec s (str "---")), not_true_iff_false.
  destruct s; intuition congruence.
Qed.

(** C6, amended: a stripped line is kept exactly when it is non-empty,
    longer than 15 characters and does not start with three dashes; when a
    line is kept, the answer is the first 4 kept lines joined with single
    spaces, shortened if longer than 400 characters and then put in the
    requested language. *)
Theorem kept_lines_joined translate (prompt : pystr)
    (language : option pystr) (ctx : pystr) :
  (∀ s, SimpleLLM.keeps s = true
        ↔ s ≠ [] ∧ 15 < length s ∧ ¬ ∃ rest, s = str "---" ++ rest)
  ∧ (SimpleLLM.extract_context prompt = Ok ctx →
     List.filter SimpleLLM.keeps (map Py.strip (Py.split LF ctx)) ≠ [] →
     ∃ answer out,
       SimpleLLM.shorten
         (Py.join (str " ")
            (take 4 (List.filter SimpleLLM.keeps (map Py.strip (Py.split LF ctx)))))
         = Ok answer
       ∧ SimpleLLM.localise translate language answer = Ok out
       ∧ SimpleLLM.generate translate prompt language = Ok out
       ∧ (length (Py.join (str " ")
            (take 4 (List.filter SimpleLLM.keeps (map Py.strip (Py.split LF ctx)))))
          ≤ 400 →
          answer = Py.join (str " ")
            (take 4 (List.filter SimpleLLM.keeps (map Py.strip (Py.split LF ctx)))))
       ∧ (SimpleLLM.wants_translation language = false → out = answer)).
Proof.
  split; [apply keeps_spec|].
  rewrite <- collect_sentences_filter. intros Hctx Hne.
  fold (SimpleLLM.joined (SimpleLLM.collect_sentences ctx)).
  destruct (shorten_total (SimpleLLM.joined (SimpleLLM.collect_sentences ctx)))
    as [answer Hshort].
  destruct (localise_total translate language answer) as [out Hloc].
  exists answer, out. split_and!; [done | done | | |].
  - by apply (generate_some _ _ _ ctx answer).
  - intros Hle. unfold SimpleLLM.shorten in Hshort.
    apply Nat.ltb_ge in Hle. rewrite Hle in Hshort. congruence.
  - intros Hlang. unfold SimpleLLM.localise in Hloc.
    rewrite Hlang in Hloc. congruence.
Qed.

Lemma kept_lines_joined_witness :
  SimpleLLM.generate no_translator water_prompt (Some (str "en"))
  = Ok (str "Water evaporates from the sea. Clouds form when vapour cools down.").
Proof.
  destruct (kept_lines_joined no_translator water_prompt (Some (str "en"))
              water_context) as [_ H].
  destruct H as (answer & out & Hshort & _ & Hgen & Hanswer & Hout).
  - vm_compute; reflexivity.
  - vm_compute; discriminate.
  - rewrite Hgen, Hout, Hanswer; [vm_compute; reflexivity | vm_compute; lia | vm_compute; reflexivity].
Defined.

(** C8: when no line of the candidate context is kept, the output is the
    canonical sentence, whatever the language. *)
Theorem no_kept_line_canonical translate (prompt : pystr)
    (language : option pystr) (ctx : pystr) :
  SimpleLLM.extract_context prompt = Ok ctx →
  Forall (fun line => SimpleLLM.keeps (Py.strip line) = false) (Py.split LF ctx) →
  SimpleLLM.generate translate prompt language
  = Ok (str "I don't have information about that in my NCERT knowledge base.").
Proof.
  intros Hctx Hnone. unfold SimpleLLM.generate, SimpleLLM.generate_body.
  rewrite Hctx. simpl. rewrite collect_sentences_filter, filter_none; [done|].
  by rewrite Forall_map.
Qed.

Lemma no_kept_line_canonical_witness :
  SimpleLLM.generate no_translator heading_line (Some (str "ta"))
  = Ok (str "I don't have information about that in my NCERT knowledge base.").
Proof.
  apply (no_kept_line_canonical no_translator heading_line (Some (str "ta")) heading_line).
  - vm_compute; reflexivity.
  - apply (bool_decide_unpack _). vm_compute. exact I.
Defined.

(** C10: [generate] returns a string on every prompt and language,
    whatever the translator does: the canonical sentence, or the shortened
    answer, its translation, or the answer followed by the note. *)
Theorem generate_always_returns translate (prompt : pystr) (language : option pystr) :
  ∃ out,
    SimpleLLM.generate translate prompt language = Ok out
    ∧ (out = SimpleLLM.canonical
       ∨ ∃ ctx answer,
           SimpleLLM.extract_context prompt = Ok ctx
           ∧ SimpleLLM.shorten (SimpleLLM.joined (SimpleLLM.collect_sentences ctx))
             = Ok answer
           ∧ (out = answer
              ∨ translate (default [] language) answer = Ok out
              ∨ (∃ e, translate (default [] language) answer = Raise e)
                ∧ out = answer ++ SimpleLLM.note (default [] language))).
Proof.
  destruct (extract_context_total prompt) as [ctx Hctx].
  destruct (SimpleLLM.collect_sentences ctx) as [|s1 rest] eqn:Hsent.
  - exists SimpleLLM.canonical. split; [|by left].
    unfold SimpleLLM.generate, SimpleLLM.generate_body.
    rewrite Hctx. simpl. by rewrite Hsent.
  - destruct (shorten_total (SimpleLLM.joined (SimpleLLM.collect_sentences ctx)))
      as [answer Hshort].
    destruct (localise_total translate language answer) as [out Hloc].
    exists out. split.
    + apply (generate_some _ _ _ ctx answer); [done | by rewrite Hsent | done | done].
    + right. exists ctx, answer. split_and!; [done | done |].
      unfold SimpleLLM.localise in Hloc.
      destruct (SimpleLLM.wants_translation language); [|left; congruence].
      destruct (translate (default [] language) answer) as [t|e] eqn:Htr; simpl in Hloc.
      * right; left. congruence.
      * right; right. split; [eauto | congruence].
Qed.

(** ** [RAGPipeline] *)

(** C7: a non-empty requested language is returned as it is; without
    one the detector is asked, and [en] stands in when it fails; an
    exception never leaves the resolution. *)
Theorem resolve_language_total detect (requested : option pystr) (query : pystr) :
  (∀ lang, requested = Some lang → lang ≠ [] →
           Pipeline.resolve_language detect requested query = Ok lang)
  ∧ (truthy requested = false →
     (∀ lang, detect query = Ok lang →
              Pipeline.resolve_language detect requested query = Ok lang)
     ∧ (∀ e, detect query = Raise e →
             Pipeline.resolve_language detect requested query = Ok (str "en")))
  ∧ (∃ lang, Pipeline.resolve_language detect requested query = Ok lang).
Proof.
  unfold Pipeline.resolve_language. split_and!.
  - intros lang -> Hne. by destruct lang.
  - intros ->. simpl. split.
    + by intros lang ->.
    + by intros e ->.
  - destruct (truthy requested); simpl; [eauto|].
    destruct (detect query); simpl; eauto.
Qed.

Lemma resolve_language_total_witness :
  Pipeline.resolve_language sample_detect (Some (str "ta")) (str "any text") = Ok (str "ta")
  ∧ Pipeline.resolve_language sample_detect None [] = Ok (str "en").
Proof.
  split.
  - apply (proj1 (resolve_language_total sample_detect (Some (str "ta")) (str "any text")));
      [reflexivity | discriminate].
  - destruct (resolve_language_total sample_detect None []) as (_ & Hnone & _).
    destruct Hnone as [_ Hfail]; [reflexivity|].
    apply (Hfail (Exception (str "No features in text."))). reflexivity.
Defined.

(** The loop of lines 112-118 from any value of [citations]. *)
Lemma citations_loop (citations : list pyval) (docs : list Document) :
  foldl (fun citations doc => citations ++ [Pipeline.citation doc]) citations docs
  = citations ++ map Pipeline.citation docs.
Proof.
  revert citations. induction docs as [|doc docs IH]; intros citations; simpl.
  - by rewrite app_nil_r.
  - rewrite IH. by rewrite <- app_assoc.
Qed.

Lemma collect_citations_map (docs : list Document) :
  Pipeline.collect_citations docs = map Pipeline.citation docs.
Proof. apply citations_loop. Qed.

(** The [filter] argument of line 91: [None] without a file name, the
    one-entry dictionary with one. *)
Lemma response_filter (filename : option pystr) :
  (if bool_decide
        ((if truthy filename
          then {[ "filename" := PStr (default [] filename) ]} else ∅)
         =@{gmap string pyval} ∅)
   then None
   else Some (if truthy filename
              then {[ "filename" := PStr (default [] filename) ]}
              else (∅ : gmap string pyval)))
  = (if truthy filename
     then Some ({[ "filename" := PStr (default [] filename) ]} : gmap string pyval)
     else None).
Proof.
  destruct (truthy filename).
  - rewrite bool_decide_eq_false_2; [done|]. apply map_non_empty_singleton.
  - by rewrite bool_decide_eq_true_2.
Qed.

(** [generate_response] step by step: the language, the one search with
    [k=3], the namespace and the filter, then the backend on the prompt
    built from the passages. *)
Lemma generate_response_eq model_generate translate detect
    (self : RAGPipeline) (query : pystr) (grade subject filename language : option pystr) :
  Pipeline.generate_response model_generate translate detect self
    query grade subject filename language
  = match Pipeline.resolve_language detect language query with
    | Raise e => Raise e
    | Ok lang =>
        match vector_store self query (subject_grade_namespace subject grade) 3
                (if truthy filename
                 then Some {[ "filename" := PStr (default [] filename) ]} else None)
        with
        | Raise e => Raise e
        | Ok [] => Ok {[ "answer" := PStr Pipeline.not_found; "citations" := PList [] ]}
        | Ok ((_ :: _) as docs) =>
            match Pipeline.llm_generate model_generate translate (llm self)
                    (Pipeline._build_prompt query
                       (Py.join passage_separator (map page_content docs)) lang)
                    (Some lang)
            with
            | Raise e => Raise e
            | Ok text =>
                Ok {[ "answer" := PStr text;
                      "citations" := PList (Pipeline.collect_citations docs);
                      "response_language" := PStr lang ]}
            end
        end
    end.
Proof.
  unfold Pipeline.generate_response.
  destruct (Pipeline.resolve_language detect language query) as [lang|e]; [|done].
  cbn [mbind result_bind]. cbv zeta. rewrite response_filter.
  destruct (vector_store self query _ 3 _) as [[|doc docs]|e]; [done | | done].
  cbn [mbind result_bind]. by destruct (Pipeline.llm_generate _ _ _ _ _).
Qed.

(** The empty retrieval, whatever the other arguments: two keys, and
    [response_language] is not one of them. *)
Lemma generate_response_no_passage model_generate translate detect
    (self : RAGPipeline) (query : pystr) (grade subject filename language : option pystr) :
  vector_store self query (subject_grade_namespace subject grade) 3
    (if truthy filename
     then Some {[ "filename" := PStr (default [] filename) ]} else None) = Ok [] →
  ∃ answer,
    Pipeline.generate_response model_generate translate detect self
      query grade subject filename language = Ok answer
    ∧ answer = {[ "answer" := PStr Pipeline.not_found; "citations" := PList [] ]}
    ∧ answer !! "response_language" = None.
Proof.
  intros Hsearch. eexists. split_and!; [|reflexivity|reflexivity].
  rewrite generate_response_eq, Hsearch.
  by destruct (resolve_language_total detect language query) as (_ & _ & lang & ->).
Qed.

(** C1, at a request for Hindi on a store with nothing indexed: the
    message and the empty citations are returned, the resolved language
    [hi] is not. *)
Theorem not_found_answer_lacks_language :
  Pipeline.generate_response no_model no_translator sample_detect empty_pipeline
    (str "What is gravity?") None None None (Some (str "hi"))
  = Ok {[ "answer" := PStr (str "I am sorry, but I don't have information about that in my NCERT knowledge base.");
          "citations" := PList [] ]}
  ∧ ({[ "answer" := PStr Pipeline.not_found; "citations" := PList [] ]}
       : gmap string pyval) !! "response_language" = None
  ∧ Pipeline.resolve_language sample_detect (Some (str "hi")) (str "What is gravity?")
    = Ok (str "hi").
Proof. split_and!; reflexivity. Qed.

(** C9: the citations are built one per passage, in retrieval order,
    each with the four fields, a field the metadata lacks being [Unknown]
    (the source) or [?] (the others), and this never fails; when the
    search of line 91 returns a non-empty list of passages and the backend
    returns a text for the prompt built from them, the answer carries
    these citations. *)
Theorem citations_follow_passages model_generate translate detect
    (self : RAGPipeline) (query : pystr)
    (grade subject filename language : option pystr) (docs : list Document)
    (lang text : pystr) :
  (length (Pipeline.collect_citations docs) = length docs
   ∧ ∀ i doc, docs !! i = Some doc →
       Pipeline.collect_citations docs !! i = Some (PDict
         {[ "source" := default (PStr (str "Unknown")) (metadata doc !! "filename");
            "page" := default (PStr (str "?")) (metadata doc !! "page");
            "grade" := default (PStr (str "?")) (metadata doc !! "grade");
            "subject" := default (PStr (str "?")) (metadata doc !! "subject") ]}))
  ∧ (docs ≠ [] →
     vector_store self query (subject_grade_namespace subject grade) 3
       (if truthy filename
        then Some {[ "filename" := PStr (default [] filename) ]} else None)
     = Ok docs →
     Pipeline.resolve_language detect language query = Ok lang →
     Pipeline.llm_generate model_generate translate (llm self)
       (Pipeline._build_prompt query
          (Py.join passage_separator (map page_content docs)) lang)
       (Some lang) = Ok text →
     Pipeline.generate_response model_generate translate detect self
       query grade subject filename language
     = Ok {[ "answer" := PStr text;
             "citations" := PList (Pipeline.collect_citations docs);
             "response_language" := PStr lang ]}).
Proof.
  split.
  - rewrite collect_citations_map. split; [apply length_map|].
    intros i doc Hi. change (map Pipeline.citation docs) with (Pipeline.citation <$> docs).
    rewrite list_lookup_fmap, Hi. reflexivity.
  - intros Hne Hsearch Hlang Htext.
    rewrite generate_response_eq, Hlang, Hsearch.
    destruct docs as [|doc docs]; [done|]. by rewrite Htext.
Qed.

Lemma citations_follow_passages_witness :
  ∃ text,
    Pipeline.generate_response no_model no_translator sample_detect partitioned_pipeline
      (str "How do plants make food?") (Some (str "6")) (Some (str "Science"))
      (Some (str "science6.pdf")) None
    = Ok {[ "answer" := PStr text;
            "citations" := PList
              [ PDict {[ "source" := PStr (str "science6.pdf"); "page" := PInt 12;
                         "grade" := PStr (str "6"); "subject" := PStr (str "Science") ]};
                PDict {[ "source" := PStr (str "Unknown"); "page" := PStr (str "?");
                         "grade" := PStr (str "?"); "subject" := PStr (str "?") ]} ];
            "response_language" := PStr (str "en") ]}.
Proof.
  destruct (generate_total no_translator
              (Pipeline._build_prompt (str "How do plants make food?")
                 (Py.join passage_separator (map page_content [leaf_doc; bare_doc]))
                 (str "en"))
              (Some (str "en"))) as [text Htext].
  exists text.
  apply (proj2 (citations_follow_passages no_model no_translator sample_detect
                  partitioned_pipeline (str "How do plants make food?")
                  (Some (str "6")) (Some (str "Science")) (Some (str "science6.pdf"))
                  None [leaf_doc; bare_doc] (str "en") text)).
  - discriminate.
  - reflexivity.
  - reflexivity.
  - exact Htext.
Defined.

(** ** Backend selection *)

(** C3, as stated, fails when the configured local runtime cannot be
    constructed: the exception leaves [__init__], and neither the remote
    backend nor the fallback is selected. *)
Lemma configured_backend_failure_propagates :
  Pipeline.init_llm both_configured (fun _ => unreachable) (Ok tt) (Ok tt)
  = Raise (Exception (str "connection refused"))
  ∧ Pipeline.init_llm {[ "GOOGLE_API_KEY" := str "secret" ]}
      (fun _ => Ok tt) unreachable (Ok tt)
    = Raise (Exception (str "connection refused")).
Proof. split; reflexivity. Qed.

(** C3, amended: a non-empty [OLLAMA_MODEL] selects the local runtime
    whatever [GOOGLE_API_KEY] holds; otherwise a non-empty [GOOGLE_API_KEY]
    selects the remote backend; in both tiers a failing construction
    raises.  Otherwise the on-device backend is tried and any failure of
    its construction selects [SimpleLLM]: only this tier never raises. *)
Theorem init_llm_priority (environ : gmap string pystr)
    (new_OllamaLLM : pystr → result unit) (new_GeminiLLM new_LocalLLM : result unit) :
  (∀ model, environ !! "OLLAMA_MODEL" = Some model → model ≠ [] →
     Pipeline.init_llm environ new_OllamaLLM new_GeminiLLM new_LocalLLM
     = match new_OllamaLLM model with
       | Ok _ => Ok (OllamaLLM model)
       | Raise e => Raise e
       end)
  ∧ (truthy (environ !! "OLLAMA_MODEL") = false →
     truthy (environ !! "GOOGLE_API_KEY") = true →
     Pipeline.init_llm environ new_OllamaLLM new_GeminiLLM new_LocalLLM
     = match new_GeminiLLM with
       | Ok _ => Ok GeminiLLM
       | Raise e => Raise e
       end)
  ∧ (truthy (environ !! "OLLAMA_MODEL") = false →
     truthy (environ !! "GOOGLE_API_KEY") = false →
     Pipeline.init_llm environ new_OllamaLLM new_GeminiLLM new_LocalLLM
     = match new_LocalLLM with
       | Ok _ => Ok LocalLLM
       | Raise _ => Ok SimpleLLM
       end).
Proof.
  unfold Pipeline.init_llm, Pipeline.getenv. split_and!.
  - intros model -> Hne. destruct model; [done|]. simpl.
    by destruct (new_OllamaLLM _).
  - intros -> ->. by destruct new_GeminiLLM.
  - intros -> ->. by destruct new_LocalLLM.
Qed.

Lemma init_llm_priority_witness :
  Pipeline.init_llm both_configured (fun _ => Ok tt) (Ok tt) (Ok tt)
  = Ok (OllamaLLM (str "llama3"))
  ∧ Pipeline.init_llm {[ "GOOGLE_API_KEY" := str "secret" ]} (fun _ => Ok tt) (Ok tt) (Ok tt)
    = Ok GeminiLLM
  ∧ Pipeline.init_llm ∅ (fun _ => Ok tt) (Ok tt) unreachable = Ok SimpleLLM.
Proof.
  split_and!.
  - apply (proj1 (init_llm_priority both_configured (fun _ => Ok tt) (Ok tt) (Ok tt))
             (str "llama3")); [reflexivity | discriminate].
  - apply (proj1 (proj2 (init_llm_priority {[ "GOOGLE_API_KEY" := str "secret" ]}
                           (fun _ => Ok tt) (Ok tt) (Ok tt)))); reflexivity.
  - apply (proj2 (proj2 (init_llm_priority ∅ (fun _ => Ok tt) (Ok tt) unreachable)));
      reflexivity.
Defined.

(** ** The [/assessment] endpoint *)

Section assessment.

Variable environ : gmap string pystr.
Variable VectorStoreManager : result VectorStore.
Variable new_OllamaLLM : pystr → result unit.
Variable new_GeminiLLM new_LocalLLM : result unit.
Variable model_generate : LLM → pystr → option pystr → result pystr.
Variable translate : pystr → pystr → result pystr.
Variable json_loads : pystr → result pyval.

(** Whatever happens inside the [try] block, the endpoint returns a
    payload: the handler of line 259 catches every exception. *)
Lemma generate_assessment_returns (pipeline : option RAGPipeline)
    (request : QueryRequest) :
  ∃ payload,
    fst (Api.generate_assessment environ VectorStoreManager new_OllamaLLM
           new_GeminiLLM new_LocalLLM model_generate translate json_loads
           pipeline request) = Ok payload.
Proof.
  unfold Api.generate_assessment.
  destruct (Api.get_pipeline _ _ _ _ _ pipeline) as [pipe pipeline'].
  simpl. destruct pipe as [pipe|e]; simpl; [|eauto].
  destruct (Api.assessment_body model_generate translate json_loads pipe request);
    simpl; eauto.
Qed.

(** Two empty retrievals raise the 404 inside the [try] block, and the
    handler turns it into the fallback payload. *)
Lemma generate_assessment_no_content (pipe : RAGPipeline) (request : QueryRequest) :
  vector_store pipe (query request)
    (subject_grade_namespace (subject request) (grade request)) 8
    (if truthy (filename request)
     then Some {[ "filename" := PStr (default [] (filename request)) ]} else None)
  = Ok [] →
  vector_store pipe
    (if truthy (subject request) then default [] (subject request) else str "NCERT")
    (subject_grade_namespace (subject request) (grade request)) 8
    (if truthy (filename request)
     then Some {[ "filename" := PStr (default [] (filename request)) ]} else None)
  = Ok [] →
  Api.assessment_body model_generate translate json_loads pipe request
  = Raise Api.no_content
  ∧ fst (Api.generate_assessment environ VectorStoreManager new_OllamaLLM
           new_GeminiLLM new_LocalLLM model_generate translate json_loads
           (Some pipe) request) = Ok (Api.assessment_fallback request).
Proof.
  intros Hfirst Hretry.
  assert (Api.assessment_body model_generate translate json_loads pipe request
          = Raise Api.no_content) as Hbody.
  { unfold Api.assessment_body. cbv zeta. rewrite Hfirst. cbn [mbind result_bind].
    by rewrite Hretry. }
  split; [done|]. unfold Api.generate_assessment. simpl. by rewrite Hbody.
Qed.

End assessment.

(** C2, at the first request of a process without any model backend, on
    a store with nothing indexed: both retrievals are empty, the 404 is
    raised and caught, and the caller receives the fallback payload. *)
Theorem no_content_returns_fallback :
  empty_store (str "photosynthesis") (Some (str "Science_6")) 8 None = Ok []
  ∧ empty_store (str "Science") (Some (str "Science_6")) 8 None = Ok []
  ∧ Api.assessment_body no_model no_translator strict_json empty_pipeline science_request
    = Raise (HTTPException 404 (str "No content found to generate assessment."))
  ∧ Api.generate_assessment ∅ (Ok empty_store) (fun _ => unreachable) unreachable
      unreachable no_model no_translator strict_json None science_request
    = (Ok (PDict {[ "topic" := PStr (str "Science");
                    "flashcards" :=
                      PList [ PDict {[ "q" := PStr (str "Error generating flashcards");
                                       "a" := PStr (str "Please try a more specific topic.") ]} ];
                    "quiz" := PList [] ]}),
       Some empty_pipeline).
Proof. split_and!; reflexivity. Qed.

(** * Further properties of the embedded code *)

(** ** Cutting at a separator whose first character is rare *)

Lemma partition_prefix (sep s : pystr) :
  Py.startswith s sep = true →
  Py.partition sep s = Some ([], drop (length sep) s).
Proof. intros H. destruct s; simpl; by rewrite H. Qed.

Lemma partition_skip (c : N) (sep' a t : pystr) :
  c ∉ a →
  Py.partition (c :: sep') (a ++ t)
  = match Py.partition (c :: sep') t with
    | Some (x, y) => Some (a ++ x, y)
    | None => None
    end.
Proof.
  induction a as [|x a IH]; intros Hc.
  - simpl app. by destruct (Py.partition (c :: sep') t) as [[? ?]|].
  - apply not_elem_of_cons in Hc as [Hx Ha].
    change ((x :: a) ++ t) with (x :: (a ++ t)).
    cbn [Py.partition Py.startswith].
    assert ((c =? x)%N = false) as -> by by apply N.eqb_neq.
    cbn [andb]. rewrite (IH Ha).
    by destruct (Py.partition (c :: sep') t) as [[? ?]|].
Qed.

Lemma partition_first (c : N) (sep' a b : pystr) :
  c ∉ a →
  Py.partition (c :: sep') (a ++ (c :: sep') ++ b) = Some (a, b).
Proof.
  intros Hc. rewrite (partition_skip _ _ _ _ Hc), partition_prefix.
  - by rewrite drop_app_length, app_nil_r.
  - apply startswith_spec. eauto.
Qed.

Lemma partition_absent (c : N) (sep' s : pystr) :
  c ∉ s → Py.partition (c :: sep') s = None.
Proof.
  intros Hc. rewrite <- (app_nil_r s), (partition_skip _ _ _ _ Hc).
  by rewrite partition_nil.
Qed.

Lemma split_first (c : N) (sep' a b : pystr) :
  c ∉ a →
  Py.split (c :: sep') (a ++ (c :: sep') ++ b) = a :: Py.split (c :: sep') b.
Proof. intros Hc. by rewrite split_unfold, partition_first. Qed.

Lemma split_absent (c : N) (sep' s : pystr) :
  c ∉ s → Py.split (c :: sep') s = [s].
Proof. intros Hc. by rewrite split_unfold, partition_absent. Qed.

Lemma split_nonempty (sep s : pystr) :
  ∃ first rest, Py.split sep s = first :: rest.
Proof.
  unfold Py.split. destruct (length s); simpl; [eauto|].
  destruct (Py.partition sep s) as [[a b]|]; eauto.
Qed.

Lemma bind_Ok {A B} (a : A) (k : A → result B) : (Ok a ≫= k) = k a.
Proof. reflexivity. Qed.

Lemma bind_Raise {A B} (e : exn) (k : A → result B) : (Raise e ≫= k) = Raise e.
Proof. reflexivity. Qed.

Lemma index_0 {A} (x : A) (l : list A) : Py.index (x :: l) 0 = Ok x.
Proof. reflexivity. Qed.

Lemma index_1 {A} (x y : A) (l : list A) : Py.index (x :: y :: l) 1 = Ok y.
Proof. reflexivity. Qed.

(** ** The fence removal of lines 252-256 and 304-308 *)

(** X1: the two indexings of the fence removal are always in range: no
    model output makes it raise. *)
Theorem strip_fence_never_raises (raw_response : pystr) :
  ∃ clean_json, Api.strip_fence raw_response = Ok clean_json.
Proof.
  unfold Api.strip_fence.
  assert (∀ fence, fence ≠ [] →
            Py.startswith (Py.strip raw_response) fence = true →
            ∃ after, Py.index (Py.split fence (Py.strip raw_response)) 1 = Ok after)
    as Hafter.
  { intros fence Hne Hstart. rewrite split_unfold, partition_prefix by done.
    destruct (split_nonempty fence (drop (length fence) (Py.strip raw_response)))
      as (after & rest & ->). rewrite index_1. eauto. }
  assert (∀ after, ∃ inner, Py.index (Py.split (str "```") after) 0 = Ok inner)
    as Hinner.
  { intros after. destruct (split_nonempty (str "```") after) as (inner & rest & ->).
    rewrite index_0. eauto. }
  destruct (Py.startswith (Py.strip raw_response) (str "```json")) eqn:Hjson.
  - destruct (Hafter (str "```json")) as [after ->]; [done | done |].
    rewrite bind_Ok. destruct (Hinner after) as [inner ->]. rewrite bind_Ok. eauto.
  - destruct (Py.startswith (Py.strip raw_response) (str "```")) eqn:Hplain; [|eauto].
    destruct (Hafter (str "```")) as [after ->]; [done | done |].
    rewrite bind_Ok. destruct (Hinner after) as [inner ->]. rewrite bind_Ok. eauto.
Qed.

(** X2: a reply that is, once stripped, a [json] fence around a body
    without backticks is reduced to the stripped body. *)
Theorem strip_fence_json_fence (raw_response body : pystr) :
  Py.strip raw_response = str "```json" ++ body ++ str "```" →
  96%N ∉ body →
  Api.strip_fence raw_response = Ok (Py.strip body).
Proof.
  intros Hclean Hbody. unfold Api.strip_fence. rewrite Hclean.
  assert (Py.startswith (str "```json" ++ body ++ str "```") (str "```json") = true)
    as Hstart by (apply startswith_spec; eauto).
  rewrite Hstart, split_unfold, (partition_prefix _ _ Hstart) by done.
  rewrite drop_app_length.
  assert (Py.split (str "```json") (body ++ str "```") = [body ++ str "```"]) as ->.
  { rewrite split_unfold by done.
    change (str "```json") with (96%N :: str "``json").
    by rewrite (partition_skip _ _ _ _ Hbody). }
  rewrite index_1, bind_Ok.
  change (str "```") with (96%N :: str "``").
  change (body ++ 96%N :: str "``") with (body ++ (96%N :: str "``") ++ []).
  rewrite (split_first _ _ _ _ Hbody). by rewrite index_0, bind_Ok.
Qed.

(** X3: the same for a plain fence, when the stripped reply does not
    begin with the [json] fence. *)
Theorem strip_fence_plain_fence (raw_response body : pystr) :
  Py.strip raw_response = str "```" ++ body ++ str "```" →
  Py.startswith (Py.strip raw_response) (str "```json") = false →
  96%N ∉ body →
  Api.strip_fence raw_response = Ok (Py.strip body).
Proof.
  intros Hclean Hjson Hbody. unfold Api.strip_fence. rewrite Hjson, Hclean.
  assert (Py.startswith (str "```" ++ body ++ str "```") (str "```") = true)
    as Hstart by (apply startswith_spec; eauto).
  rewrite Hstart, split_unfold, (partition_prefix _ _ Hstart) by done.
  rewrite drop_app_length.
  change (str "```") with (96%N :: str "``").
  change (body ++ 96%N :: str "``") with (body ++ (96%N :: str "``") ++ []).
  rewrite (split_first _ _ _ _ Hbody), index_1, bind_Ok.
  rewrite (split_absent _ _ _ Hbody). by rewrite index_0, bind_Ok.
Qed.

(** X4: a reply that does not begin with a fence is only stripped. *)
Theorem strip_fence_unfenced (raw_response : pystr) :
  Py.startswith (Py.strip raw_response) (str "```") = false →
  Api.strip_fence raw_response = Ok (Py.strip raw_response).
Proof.
  intros Hplain. unfold Api.strip_fence. rewrite Hplain.
  destruct (Py.startswith (Py.strip raw_response) (str "```json")) eqn:Hjson; [|done].
  apply startswith_spec in Hjson as [rest Hrest].
  assert (Py.startswith (Py.strip raw_response) (str "```") = true) as Htrue.
  { apply startswith_spec. exists (str "json" ++ rest). by rewrite Hrest. }
  congruence.
Qed.

Lemma strip_fence_json_fence_witness :
  Api.strip_fence fenced_reply = Ok (str "[1, 2, 3]").
Proof.
  change (Ok (str "[1, 2, 3]")) with (Ok (Py.strip fenced_body)).
  apply strip_fence_json_fence.
  - vm_compute; reflexivity.
  - apply (bool_decide_unpack _). vm_compute. exact I.
Defined.

Lemma strip_fence_plain_fence_witness :
  Api.strip_fence plain_fenced_reply = Ok (str "[1, 2, 3]").
Proof.
  change (Ok (str "[1, 2, 3]")) with (Ok (Py.strip fenced_body)).
  apply strip_fence_plain_fence.
  - vm_compute; reflexivity.
  - vm_compute; reflexivity.
  - apply (bool_decide_unpack _). vm_compute. exact I.
Defined.

Lemma strip_fence_unfenced_witness :
  Api.strip_fence (str " [1, 2, 3] ") = Ok (str "[1, 2, 3]").
Proof.
  change (Ok (str "[1, 2, 3]")) with (Ok (Py.strip (str " [1, 2, 3] "))).
  apply strip_fence_unfenced. vm_compute; reflexivity.
Defined.

(** ** The endpoints of [src/api/main.py] *)

Lemma bind_Ok_inv {A B} (m : result A) (k : A → result B) (b : B) :
  m ≫= k = Ok b → ∃ a, m = Ok a ∧ k a = Ok b.
Proof. destruct m as [a|e]; [eauto | discriminate]. Qed.

Lemma bind_ext {A B} (m : result A) (k k' : A → result B) :
  (∀ a, k a = k' a) → m ≫= k = m ≫= k'.
Proof. intros Hk. destruct m; [apply Hk | done]. Qed.

(** X5: [get_pipeline] builds the pipeline at most once.  Once it has
    returned a pipeline, every later call returns that same pipeline and
    leaves the module variable alone, whatever the environment and the
    constructors have become; a failed construction leaves the variable
    unset. *)
Theorem get_pipeline_memoized (environ : gmap string pystr)
    (VectorStoreManager : result VectorStore) (new_OllamaLLM : pystr → result unit)
    (new_GeminiLLM new_LocalLLM : result unit) (pipeline : option RAGPipeline) :
  (∀ pipe pipeline',
     Api.get_pipeline environ VectorStoreManager new_OllamaLLM new_GeminiLLM
       new_LocalLLM pipeline = (Ok pipe, pipeline') →
     pipeline' = Some pipe
     ∧ ∀ environ' VectorStoreManager' new_OllamaLLM' new_GeminiLLM' new_LocalLLM',
         Api.get_pipeline environ' VectorStoreManager' new_OllamaLLM' new_GeminiLLM'
           new_LocalLLM' pipeline' = (Ok pipe, pipeline'))
  ∧ (∀ e pipeline',
       Api.get_pipeline environ VectorStoreManager new_OllamaLLM new_GeminiLLM
         new_LocalLLM pipeline = (Raise e, pipeline') →
       pipeline = None ∧ pipeline' = None).
Proof.
  unfold Api.get_pipeline. split.
  - intros pipe pipeline' Hget.
    assert (pipeline' = Some pipe) as ->; [|done].
    destruct pipeline as [p|]; [congruence|].
    destruct (Pipeline.__init__ _ _ _ _ _); congruence.
  - intros e pipeline' Hget. destruct pipeline as [p|]; [congruence|].
    destruct (Pipeline.__init__ _ _ _ _ _); [congruence|].
    split; congruence.
Qed.

Lemma get_pipeline_memoized_witness :
  Api.get_pipeline both_configured (Raise (Exception (str "index not reachable"))) (fun _ => unreachable) unreachable
    unreachable (Some empty_pipeline) = (Ok empty_pipeline, Some empty_pipeline)
  ∧ snd (Api.get_pipeline both_configured (Ok empty_store) (fun _ => unreachable)
           unreachable unreachable None) = None.
Proof.
  split.
  - apply (proj1 (get_pipeline_memoized ∅ (Ok empty_store) (fun _ => Ok tt) (Ok tt)
                    unreachable None) empty_pipeline (Some empty_pipeline)).
    reflexivity.
  - apply (proj2 (get_pipeline_memoized both_configured (Ok empty_store)
                    (fun _ => unreachable) unreachable unreachable None)
             (Exception (str "connection refused"))).
    reflexivity.
Defined.

Section endpoints.

Variable environ : gmap string pystr.
Variable VectorStoreManager : result VectorStore.
Variable new_OllamaLLM : pystr → result unit.
Variable new_GeminiLLM new_LocalLLM : result unit.
Variable model_generate : LLM → pystr → option pystr → result pystr.
Variable translate : pystr → pystr → result pystr.
Variable json_loads : pystr → result pyval.
Variable detect : pystr → result pystr.
Variable exn_str : exn → pystr.
Variable float : Type.
Variable float_str : float → pystr.
Variable json_dumps : pyval → result pystr.

(** What the [try] block of the assessment does with the passages of
    the first retrieval, and with those of the retry. *)
Lemma assessment_body_first (pipe : RAGPipeline) (request : QueryRequest)
    (docs : list Document) :
  vector_store pipe (query request)
    (subject_grade_namespace (subject request) (grade request)) 8
    (if truthy (filename request)
     then Some {[ "filename" := PStr (default [] (filename request)) ]} else None)
  = Ok docs →
  docs ≠ [] →
  Api.assessment_body model_generate translate json_loads pipe request
  = (raw_response ←
       Pipeline.llm_generate model_generate translate (llm pipe)
         (Api.assessment_prompt_head
            ++ Py.join passage_separator (map page_content docs)
            ++ Api.assessment_prompt_tail) None;
     clean_json ← Api.strip_fence raw_response;
     json_loads clean_json).
Proof.
  intros Hfirst Hne. unfold Api.assessment_body. cbv zeta.
  rewrite Hfirst. destruct docs as [|doc docs]; [done|]. by rewrite !bind_Ok.
Qed.

Lemma assessment_body_retry (pipe : RAGPipeline) (request : QueryRequest)
    (docs : list Document) :
  vector_store pipe (query request)
    (subject_grade_namespace (subject request) (grade request)) 8
    (if truthy (filename request)
     then Some {[ "filename" := PStr (default [] (filename request)) ]} else None)
  = Ok [] →
  vector_store pipe
    (if truthy (subject request) then default [] (subject request) else str "NCERT")
    (subject_grade_namespace (subject request) (grade request)) 8
    (if truthy (filename request)
     then Some {[ "filename" := PStr (default [] (filename request)) ]} else None)
  = Ok docs →
  docs ≠ [] →
  Api.assessment_body model_generate translate json_loads pipe request
  = (raw_response ←
       Pipeline.llm_generate model_generate translate (llm pipe)
         (Api.assessment_prompt_head
            ++ Py.join passage_separator (map page_content docs)
            ++ Api.assessment_prompt_tail) None;
     clean_json ← Api.strip_fence raw_response;
     json_loads clean_json).
Proof.
  intros Hfirst Hretry Hne. unfold Api.assessment_body. cbv zeta.
  rewrite Hfirst, bind_Ok, Hretry. destruct docs as [|doc docs]; [done|].
  by rewrite !bind_Ok.
Qed.

(** X6: when the search for the query, under the namespace and the
    filter of the request and with [k=8], finds nothing and the retry
    under the subject name (or [NCERT] without a subject), with the same
    namespace, filter and [k], finds passages, the assessment is built
    from those passages exactly as if the first search had found them. *)
Theorem assessment_retry_as_first (pipe pipe' : RAGPipeline)
    (request : QueryRequest) (docs : list Document) :
  vector_store pipe (query request)
    (subject_grade_namespace (subject request) (grade request)) 8
    (if truthy (filename request)
     then Some {[ "filename" := PStr (default [] (filename request)) ]} else None)
  = Ok [] →
  vector_store pipe
    (if truthy (subject request) then default [] (subject request) else str "NCERT")
    (subject_grade_namespace (subject request) (grade request)) 8
    (if truthy (filename request)
     then Some {[ "filename" := PStr (default [] (filename request)) ]} else None)
  = Ok docs →
  vector_store pipe' (query request)
    (subject_grade_namespace (subject request) (grade request)) 8
    (if truthy (filename request)
     then Some {[ "filename" := PStr (default [] (filename request)) ]} else None)
  = Ok docs →
  docs ≠ [] →
  llm pipe = llm pipe' →
  Api.assessment_body model_generate translate json_loads pipe request
  = Api.assessment_body model_generate translate json_loads pipe' request.
Proof.
  intros Hfirst Hretry Hfirst' Hne Hllm.
  rewrite (assessment_body_retry pipe request docs) by done.
  rewrite (assessment_body_first pipe' request docs) by done.
  by rewrite Hllm.
Qed.

(** X7: with passages retrieved, by the search for the query or, when
    that finds nothing, by the retry under the subject name, a reply that
    is a [json] fence around a body the parser accepts makes the endpoint
    return the parsed value, not the fallback. *)
Theorem assessment_returns_fenced_json (pipe : RAGPipeline) (request : QueryRequest)
    (docs : list Document) (raw_response body : pystr) (payload : pyval) :
  docs ≠ [] →
  vector_store pipe (query request)
    (subject_grade_namespace (subject request) (grade request)) 8
    (if truthy (filename request)
     then Some {[ "filename" := PStr (default [] (filename request)) ]} else None)
  = Ok docs
  ∨ (vector_store pipe (query request)
       (subject_grade_namespace (subject request) (grade request)) 8
       (if truthy (filename request)
        then Some {[ "filename" := PStr (default [] (filename request)) ]} else None)
     = Ok []
     ∧ vector_store pipe
         (if truthy (subject request) then default [] (subject request) else str "NCERT")
         (subject_grade_namespace (subject request) (grade request)) 8
         (if truthy (filename request)
          then Some {[ "filename" := PStr (default [] (filename request)) ]} else None)
       = Ok docs) →
  Pipeline.llm_generate model_generate translate (llm pipe)
    (Api.assessment_prompt_head ++ Py.join passage_separator (map page_content docs)
       ++ Api.assessment_prompt_tail) None = Ok raw_response →
  Py.strip raw_response = str "```json" ++ body ++ str "```" →
  96%N ∉ body →
  json_loads (Py.strip body) = Ok payload →
  Api.generate_assessment environ VectorStoreManager new_OllamaLLM new_GeminiLLM
    new_LocalLLM model_generate translate json_loads (Some pipe) request
  = (Ok payload, Some pipe).
Proof.
  intros Hne Hdocs Hraw Hclean Hbody Hjson. unfold Api.generate_assessment.
  cbn [Api.get_pipeline]. rewrite bind_Ok.
  assert (Api.assessment_body model_generate translate json_loads pipe request
          = (raw_response ←
               Pipeline.llm_generate model_generate translate (llm pipe)
                 (Api.assessment_prompt_head
                    ++ Py.join passage_separator (map page_content docs)
                    ++ Api.assessment_prompt_tail) None;
             clean_json ← Api.strip_fence raw_response;
             json_loads clean_json)) as ->.
  { destruct Hdocs as [Hfirst | [Hfirst Hretry]].
    - by apply assessment_body_first.
    - by apply assessment_body_retry. }
  rewrite Hraw, bind_Ok, (strip_fence_json_fence _ body) by done.
  by rewrite bind_Ok, Hjson.
Qed.

Lemma assessment_body_origin (pipe : RAGPipeline) (request : QueryRequest)
    (payload : pyval) :
  Api.assessment_body model_generate translate json_loads pipe request = Ok payload →
  ∃ clean_json, json_loads clean_json = Ok payload.
Proof.
  unfold Api.assessment_body. intros H.
  apply bind_Ok_inv in H as (docs & _ & H).
  apply bind_Ok_inv in H as (docs' & _ & H).
  apply bind_Ok_inv in H as (? & _ & H).
  apply bind_Ok_inv in H as (raw & _ & H).
  apply bind_Ok_inv in H as (clean & _ & H). eauto.
Qed.

(** X8: the assessment endpoint never raises, and what it returns is
    either a value [json.loads] produced or the fallback of lines
    262-268. *)
Theorem assessment_payload_origin (pipeline : option RAGPipeline)
    (request : QueryRequest) :
  ∃ payload,
    fst (Api.generate_assessment environ VectorStoreManager new_OllamaLLM
           new_GeminiLLM new_LocalLLM model_generate translate json_loads
           pipeline request) = Ok payload
    ∧ (payload = Api.assessment_fallback request
       ∨ ∃ clean_json, json_loads clean_json = Ok payload).
Proof.
  unfold Api.generate_assessment.
  destruct (Api.get_pipeline _ _ _ _ _ pipeline) as [[pipe|e] pipeline']; cbn [fst].
  - rewrite bind_Ok.
    destruct (Api.assessment_body model_generate translate json_loads pipe request)
      as [payload|e] eqn:Hbody; cbn [try_except].
    + exists payload. split; [done|]. right. by apply (assessment_body_origin pipe request).
    + eauto.
  - rewrite bind_Raise. cbn [try_except]. eauto.
Qed.

Lemma mission_body_origin (pipe : RAGPipeline) (request : Api.MissionRequest float)
    (payload : pyval) :
  Api.mission_body model_generate translate json_loads float float_str json_dumps
    pipe request = Ok payload →
  ∃ clean_json, json_loads clean_json = Ok payload.
Proof.
  unfold Api.mission_body. intros H.
  apply bind_Ok_inv in H as (stats & _ & H).
  apply bind_Ok_inv in H as (raw & _ & H).
  apply bind_Ok_inv in H as (clean & _ & H). eauto.
Qed.

(** X9: the mission endpoint never raises either: it returns a value
    [json.loads] produced, or the fixed mission of lines 313-318 with its
    four fields. *)
Theorem mission_payload_origin (pipeline : option RAGPipeline)
    (request : Api.MissionRequest float) :
  ∃ payload,
    fst (Api.generate_mission environ VectorStoreManager new_OllamaLLM
           new_GeminiLLM new_LocalLLM model_generate translate json_loads
           float float_str json_dumps pipeline request) = Ok payload
    ∧ (payload
       = PDict {[ "mission_title" := PStr (str "Concept Deep Dive");
                  "description" :=
                    PStr (str "Re-examine your last studied chapter to solidify understanding.");
                  "target_subject" := PStr (str "General");
                  "reward_points" := PInt 20 ]}
       ∨ ∃ clean_json, json_loads clean_json = Ok payload).
Proof.
  unfold Api.generate_mission.
  destruct (Api.get_pipeline _ _ _ _ _ pipeline) as [[pipe|e] pipeline']; cbn [fst].
  - rewrite bind_Ok.
    destruct (Api.mission_body model_generate translate json_loads float float_str
                json_dumps pipe request) as [payload|e] eqn:Hbody; cbn [try_except].
    + exists payload. split; [done|]. right. by apply (mission_body_origin pipe request).
    + eauto.
  - rewrite bind_Raise. cbn [try_except]. eauto.
Qed.

(** X10: only the first three activity records reach the mission prompt:
    the records after the third change nothing. *)
Theorem mission_reads_three_activities (pipeline : option RAGPipeline)
    (name persona : pystr) (readiness : float) (mastery : gmap string pyval)
    (activity : list (gmap string pyval)) :
  Api.generate_mission environ VectorStoreManager new_OllamaLLM new_GeminiLLM
    new_LocalLLM model_generate translate json_loads float float_str json_dumps
    pipeline (Api.Build_MissionRequest float name readiness mastery activity persona)
  = Api.generate_mission environ VectorStoreManager new_OllamaLLM new_GeminiLLM
      new_LocalLLM model_generate translate json_loads float float_str json_dumps
      pipeline (Api.Build_MissionRequest float name readiness mastery
                  (take 3 activity) persona).
Proof.
  unfold Api.generate_mission, Api.mission_body, Api.stats_context.
  cbn [Api.recent_activity Api.subjects_mastery Api.displayName Api.persona Api.readiness].
  by rewrite take_take.
Qed.

(** X11: [/chat] fails only with status 500.  A response it returns is
    the one [generate_response] returned; an exception it raises is an
    [HTTPException] with status 500 whose detail is the text of the
    exception that building the pipeline or [generate_response] raised. *)
Theorem chat_fails_with_500 (pipeline : option RAGPipeline) (request : QueryRequest) :
  match fst (Api.chat environ VectorStoreManager new_OllamaLLM new_GeminiLLM
               new_LocalLLM model_generate translate detect exn_str pipeline request)
  with
  | Ok response =>
      ∃ pipe,
        fst (Api.get_pipeline environ VectorStoreManager new_OllamaLLM new_GeminiLLM
               new_LocalLLM pipeline) = Ok pipe
        ∧ Pipeline.generate_response model_generate translate detect pipe
            (query request) (grade request) (subject request) (filename request)
            (language request) = Ok response
  | Raise e =>
      ∃ cause,
        e = HTTPException 500 (exn_str cause)
        ∧ (fst (Api.get_pipeline environ VectorStoreManager new_OllamaLLM
                  new_GeminiLLM new_LocalLLM pipeline) = Raise cause
           ∨ ∃ pipe,
               fst (Api.get_pipeline environ VectorStoreManager new_OllamaLLM
                      new_GeminiLLM new_LocalLLM pipeline) = Ok pipe
               ∧ Pipeline.generate_response model_generate translate detect pipe
                   (query request) (grade request) (subject request)
                   (filename request) (language request) = Raise cause)
  end.
Proof.
  unfold Api.chat.
  destruct (Api.get_pipeline _ _ _ _ _ pipeline) as [[pipe|e] pipeline']; cbn [fst].
  - rewrite bind_Ok.
    destruct (Pipeline.generate_response _ _ _ pipe _ _ _ _ _) as [response|e] eqn:Hresp;
      cbn [try_except]; eauto 8.
  - rewrite bind_Raise. cbn [try_except]. eauto.
Qed.

End endpoints.

Lemma assessment_retry_as_first_witness :
  Api.assessment_body no_model no_translator tiny_json subject_only_pipeline science_request
  = Api.assessment_body no_model no_translator tiny_json leaf_pipeline science_request.
Proof.
  apply (assessment_retry_as_first no_model no_translator tiny_json
           subject_only_pipeline leaf_pipeline science_request [leaf_doc]).
  - reflexivity.
  - reflexivity.
  - reflexivity.
  - discriminate.
  - reflexivity.
Defined.

Lemma assessment_returns_fenced_json_witness :
  Api.generate_assessment ∅ (Ok leaf_store) (fun _ => unreachable) unreachable
    unreachable fenced_model no_translator tiny_json
    (Some gemini_leaf_pipeline) science_request
  = (Ok (PList [PInt 1; PInt 2; PInt 3]), Some gemini_leaf_pipeline)
  ∧ Api.generate_assessment ∅ (Ok leaf_store) (fun _ => unreachable) unreachable
      unreachable fenced_model no_translator tiny_json
      (Some gemini_subject_pipeline) science_request
    = (Ok (PList [PInt 1; PInt 2; PInt 3]), Some gemini_subject_pipeline).
Proof.
  split.
  - apply (assessment_returns_fenced_json ∅ (Ok leaf_store) (fun _ => unreachable)
             unreachable unreachable fenced_model no_translator tiny_json
             gemini_leaf_pipeline science_request [leaf_doc] fenced_reply fenced_body).
    + discriminate.
    + left. reflexivity.
    + reflexivity.
    + vm_compute; reflexivity.
    + apply (bool_decide_unpack _). vm_compute. exact I.
    + vm_compute; reflexivity.
  - apply (assessment_returns_fenced_json ∅ (Ok leaf_store) (fun _ => unreachable)
             unreachable unreachable fenced_model no_translator tiny_json
             gemini_subject_pipeline science_request [leaf_doc] fenced_reply fenced_body).
    + discriminate.
    + right. split; reflexivity.
    + reflexivity.
    + vm_compute; reflexivity.
    + apply (bool_decide_unpack _). vm_compute. exact I.
    + vm_compute; reflexivity.
Defined.

(** ** The fallback backend without a language keyword *)

Lemma generate_without_translation translate translate' (prompt : pystr)
    (language : option pystr) :
  SimpleLLM.wants_translation language = false →
  SimpleLLM.generate translate prompt language
  = SimpleLLM.generate translate' prompt language.
Proof.
  intros Hlang.
  assert (SimpleLLM.generate_body translate prompt language
          = SimpleLLM.generate_body translate' prompt language) as Hbody.
  { unfold SimpleLLM.generate_body. apply bind_ext. intros ctx.
    destruct (SimpleLLM.collect_sentences ctx) as [|s1 rest]; [done|].
    apply bind_ext. intros answer. unfold SimpleLLM.localise. by rewrite Hlang. }
  unfold SimpleLLM.generate. by rewrite Hbody.
Qed.

Lemma llm_generate_default_language model_generate translate translate'
    (backend : LLM) (prompt : pystr) :
  Pipeline.llm_generate model_generate translate backend prompt None
  = Pipeline.llm_generate model_generate translate' backend prompt None.
Proof.
  destruct backend; [reflexivity .. |].
  apply generate_without_translation. reflexivity.
Qed.

(** X12: the assessment and mission endpoints never use the translator:
    they call [generate] without a language, [SimpleLLM] then works in
    English, and the result is the same under any two translators. *)
Theorem endpoints_never_translate (environ : gmap string pystr)
    (VectorStoreManager : result VectorStore) (new_OllamaLLM : pystr → result unit)
    (new_GeminiLLM new_LocalLLM : result unit)
    (model_generate : LLM → pystr → option pystr → result pystr)
    (translate translate' : pystr → pystr → result pystr)
    (json_loads : pystr → result pyval) (float : Type) (float_str : float → pystr)
    (json_dumps : pyval → result pystr) (pipeline : option RAGPipeline)
    (request : QueryRequest) (mission : Api.MissionRequest float) :
  Api.generate_assessment environ VectorStoreManager new_OllamaLLM new_GeminiLLM
    new_LocalLLM model_generate translate json_loads pipeline request
  = Api.generate_assessment environ VectorStoreManager new_OllamaLLM new_GeminiLLM
      new_LocalLLM model_generate translate' json_loads pipeline request
  ∧ Api.generate_mission environ VectorStoreManager new_OllamaLLM new_GeminiLLM
      new_LocalLLM model_generate translate json_loads float float_str json_dumps
      pipeline mission
    = Api.generate_mission environ VectorStoreManager new_OllamaLLM new_GeminiLLM
        new_LocalLLM model_generate translate' json_loads float float_str json_dumps
        pipeline mission.
Proof.
  assert (∀ pipe, Api.assessment_body model_generate translate json_loads pipe request
                  = Api.assessment_body model_generate translate' json_loads pipe request)
    as Hassessment.
  { intros pipe. unfold Api.assessment_body. do 3 (apply bind_ext; intros ?).
    by rewrite (llm_generate_default_language _ translate translate'). }
  assert (∀ pipe, Api.mission_body model_generate translate json_loads float float_str
                    json_dumps pipe mission
                  = Api.mission_body model_generate translate' json_loads float float_str
                      json_dumps pipe mission)
    as Hmission.
  { intros pipe. unfold Api.mission_body. apply bind_ext; intros ?.
    by rewrite (llm_generate_default_language _ translate translate'). }
  unfold Api.generate_assessment, Api.generate_mission.
  destruct (Api.get_pipeline _ _ _ _ _ pipeline) as [pipe pipeline'].
  by rewrite (bind_ext pipe _ _ Hassessment), (bind_ext pipe _ _ Hmission).
Qed.

(** ** [generate_response]: failures and the fallback backend *)

(** X13: an exception of the search of line 91, or of the backend
    called on the prompt built once that search has found passages,
    leaves [generate_response] unchanged. *)
Theorem generate_response_propagates model_generate translate detect
    (self : RAGPipeline) (query : pystr)
    (grade subject filename language : option pystr) (e : exn) :
  (vector_store self query (subject_grade_namespace subject grade) 3
     (if truthy filename
      then Some {[ "filename" := PStr (default [] filename) ]} else None)
   = Raise e →
   Pipeline.generate_response model_generate translate detect self
     query grade subject filename language = Raise e)
  ∧ (∀ docs lang,
       docs ≠ [] →
       vector_store self query (subject_grade_namespace subject grade) 3
         (if truthy filename
          then Some {[ "filename" := PStr (default [] filename) ]} else None)
       = Ok docs →
       Pipeline.resolve_language detect language query = Ok lang →
       Pipeline.llm_generate model_generate translate (llm self)
         (Pipeline._build_prompt query
            (Py.join passage_separator (map page_content docs)) lang)
         (Some lang) = Raise e →
       Pipeline.generate_response model_generate translate detect self
         query grade subject filename language = Raise e).
Proof.
  split.
  - intros Hsearch. rewrite generate_response_eq, Hsearch.
    by destruct (resolve_language_total detect language query) as (_ & _ & lang & ->).
  - intros docs lang Hne Hsearch Hlang Hgen.
    rewrite generate_response_eq, Hlang, Hsearch.
    destruct docs as [|doc docs]; [done|]. by rewrite Hgen.
Qed.

Lemma generate_response_propagates_witness :
  Pipeline.generate_response no_model no_translator sample_detect broken_pipeline
    (str "What is gravity?") None None None None
  = Raise (Exception (str "index not reachable"))
  ∧ Pipeline.generate_response no_model no_translator sample_detect gemini_leaf_pipeline
      (str "What is a leaf?") None None None (Some (str "en"))
    = Raise (Exception (str "model backend unreachable")).
Proof.
  split.
  - apply (proj1 (generate_response_propagates no_model no_translator sample_detect
                    broken_pipeline (str "What is gravity?") None None None None
                    (Exception (str "index not reachable")))).
    reflexivity.
  - apply (proj2 (generate_response_propagates no_model no_translator sample_detect
                    gemini_leaf_pipeline (str "What is a leaf?") None None None
                    (Some (str "en")) (Exception (str "model backend unreachable")))
             [leaf_doc] (str "en")).
    + discriminate.
    + reflexivity.
    + reflexivity.
    + reflexivity.
Defined.

(** X14: with the extractive fallback as backend, [generate_response]
    returns a response whenever the search of line 91 returns, with the
    text and the language under [answer] and [response_language] when
    passages were found. *)
Theorem fallback_pipeline_answers model_generate translate detect
    (store : VectorStore) (query : pystr)
    (grade subject filename language : option pystr) (docs : list Document) :
  store query (subject_grade_namespace subject grade) 3
    (if truthy filename
     then Some {[ "filename" := PStr (default [] filename) ]} else None)
  = Ok docs →
  ∃ response,
    Pipeline.generate_response model_generate translate detect
      {| vector_store := store; llm := SimpleLLM |}
      query grade subject filename language = Ok response
    ∧ (docs ≠ [] →
       ∃ text lang,
         response !! "answer" = Some (PStr text)
         ∧ response !! "response_language" = Some (PStr lang)
         ∧ Pipeline.resolve_language detect language query = Ok lang
         ∧ SimpleLLM.generate translate
             (Pipeline._build_prompt query
                (Py.join passage_separator (map page_content docs)) lang)
             (Some lang) = Ok text).
Proof.
  intros Hsearch. rewrite generate_response_eq.
  destruct (resolve_language_total detect language query) as (_ & _ & lang & Hlang).
  rewrite Hlang. cbn [vector_store llm]. rewrite Hsearch.
  destruct docs as [|doc docs]; [eexists; split; [done | done]|].
  cbn [Pipeline.llm_generate default]. change (id lang) with lang.
  destruct (generate_total translate
              (Pipeline._build_prompt query
                 (Py.join passage_separator (map page_content (doc :: docs))) lang)
              (Some lang)) as [text Htext].
  rewrite Htext. eexists. split; [done|]. intros _.
  exists text, lang. split_and!; done.
Qed.

Lemma fallback_pipeline_answers_witness :
  ∃ response,
    Pipeline.generate_response no_model no_translator sample_detect partitioned_pipeline
      (str "What is a leaf?") (Some (str "6")) (Some (str "Science"))
      (Some (str "science6.pdf")) (Some (str "en")) = Ok response
    ∧ response !! "response_language" = Some (PStr (str "en")).
Proof.
  destruct (fallback_pipeline_answers no_model no_translator sample_detect
              partitioned_store (str "What is a leaf?") (Some (str "6"))
              (Some (str "Science")) (Some (str "science6.pdf")) (Some (str "en"))
              [leaf_doc; bare_doc])
    as (response & Hresp & Hfields).
  - reflexivity.
  - exists response. split; [exact Hresp|].
    destruct Hfields as (text & lang & _ & Hlang & Hres & _); [discriminate|].
    injection Hres as <-. exact Hlang.
Defined.

(** X15: on a machine with neither [OLLAMA_MODEL] nor [GOOGLE_API_KEY]
    set, constructing the pipeline fails only if the vector store does:
    the backend is the on-device model, or [SimpleLLM] when that cannot be
    built. *)
Theorem unconfigured_pipeline (environ : gmap string pystr)
    (VectorStoreManager : result VectorStore) (new_OllamaLLM : pystr → result unit)
    (new_GeminiLLM new_LocalLLM : result unit) :
  truthy (environ !! "OLLAMA_MODEL") = false →
  truthy (environ !! "GOOGLE_API_KEY") = false →
  Pipeline.__init__ environ VectorStoreManager new_OllamaLLM new_GeminiLLM new_LocalLLM
  = match VectorStoreManager with
    | Raise e => Raise e
    | Ok store =>
        Ok {| vector_store := store;
              llm := match new_LocalLLM with
                     | Ok _ => LocalLLM
                     | Raise _ => SimpleLLM
                     end |}
    end.
Proof.
  intros Hollama Hgoogle. unfold Pipeline.__init__, Pipeline.init_llm, Pipeline.getenv.
  rewrite Hollama, Hgoogle. destruct VectorStoreManager as [store|e]; [|done].
  rewrite bind_Ok. by destruct new_LocalLLM.
Qed.

Lemma unconfigured_pipeline_witness :
  Pipeline.__init__ ∅ (Ok empty_store) (fun _ => unreachable) unreachable unreachable
  = Ok empty_pipeline.
Proof.
  apply (unconfigured_pipeline ∅ (Ok empty_store) (fun _ => unreachable)
           unreachable unreachable); reflexivity.
Defined.

(** ** The prompt templates seen by the extractive fallback *)

Ltac by_computation := apply (bool_decide_unpack _); vm_compute; exact I.

Lemma english_head_split :
  Pipeline.english_prompt_head
  = take 237 Pipeline.english_prompt_head ++ str "Context:" ++ LF
  ∧ 67%N ∉ take 237 Pipeline.english_prompt_head.
Proof. split; [vm_compute; reflexivity | by_computation]. Qed.

(** X16: for the English template (every language but [hi]) and a
    query and passages without a capital C, the context the fallback
    extracts is what follows the template's marker: the passages, the
    question line and the answer cue, without the instructions. *)
Theorem english_prompt_context (query context lang : pystr) :
  lang ≠ str "hi" →
  67%N ∉ query →
  67%N ∉ context →
  SimpleLLM.extract_context (Pipeline._build_prompt query context lang)
  = Ok (LF ++ context ++ LF ++ LF ++ str "Question: " ++ query ++ LF ++ str "Answer:").
Proof.
  intros Hlang Hquery Hcontext. unfold Pipeline._build_prompt, Py.eqb.
  rewrite bool_decide_eq_false_2 by done.
  destruct english_head_split as [Hhead Hpre]. rewrite Hhead.
  set (pre := take 237 Pipeline.english_prompt_head) in *.
  set (rest := LF ++ context ++ LF ++ LF ++ str "Question: " ++ query ++ LF ++ str "Answer:").
  replace ((pre ++ str "Context:" ++ LF) ++ context ++ LF ++ LF ++ str "Question: "
             ++ query ++ LF ++ str "Answer:")
    with (pre ++ str "Context:" ++ rest)
    by (unfold rest; by rewrite <- !app_assoc).
  rewrite extract_context_eq.
  change (str "Context:") with (67%N :: str "ontext:").
  rewrite (partition_first _ _ _ _ Hpre), partition_absent; [done|].
  unfold rest. rewrite !not_elem_of_app. split_and!; try done; by_computation.
Qed.

Lemma english_prompt_context_witness :
  SimpleLLM.extract_context
    (Pipeline._build_prompt (str "What do leaves do?") (page_content leaf_doc) (str "en"))
  = Ok (LF ++ page_content leaf_doc ++ LF ++ LF ++ str "Question: "
          ++ str "What do leaves do?" ++ LF ++ str "Answer:").
Proof.
  apply english_prompt_context.
  - discriminate.
  - by_computation.
  - by_computation.
Defined.

Lemma split_line (line rest : pystr) :
  10%N ∉ line → Py.split LF (line ++ LF ++ rest) = line :: Py.split LF rest.
Proof. intros Hline. by apply (split_first 10%N [] line rest). Qed.

Lemma hindi_head_split :
  Pipeline.hindi_prompt_head
  = take 84 Pipeline.hindi_prompt_head ++ LF
      ++ take 54 (drop 85 Pipeline.hindi_prompt_head) ++ LF
      ++ drop 140 Pipeline.hindi_prompt_head.
Proof. vm_compute; reflexivity. Qed.

(** X17: for the Hindi template the marker [Context:] is absent, so for
    a query and passages without a capital C the fallback reads the whole
    prompt, and the first two sentences it keeps are the two instruction
    lines of the template, ahead of any passage. *)
Theorem hindi_prompt_sentences (query context : pystr) :
  67%N ∉ query →
  67%N ∉ context →
  SimpleLLM.extract_context (Pipeline._build_prompt query context (str "hi"))
  = Ok (Pipeline._build_prompt query context (str "hi"))
  ∧ ∃ first second rest,
      SimpleLLM.collect_sentences (Pipeline._build_prompt query context (str "hi"))
      = first :: second :: rest
      ∧ take 140 Pipeline.hindi_prompt_head = first ++ str " " ++ LF ++ second ++ LF.
Proof.
  intros Hquery Hcontext. split.
  - rewrite extract_context_eq.
    change (str "Context:") with (67%N :: str "ontext:").
    rewrite partition_absent; [done|].
    unfold Pipeline._build_prompt. change (Py.eqb (str "hi") (str "hi")) with true.
    cbv iota. rewrite !not_elem_of_app. split_and!; try done; by_computation.
  - exists (Py.strip (take 84 Pipeline.hindi_prompt_head)),
           (Py.strip (take 54 (drop 85 Pipeline.hindi_prompt_head))),
           (List.filter SimpleLLM.keeps
              (map Py.strip
                 (Py.split LF (drop 140 Pipeline.hindi_prompt_head ++ context
                                 ++ Pipeline.hindi_prompt_question ++ query
                                 ++ Pipeline.hindi_prompt_answer)))).
    split; [|vm_compute; reflexivity].
    rewrite collect_sentences_filter.
    unfold Pipeline._build_prompt. change (Py.eqb (str "hi") (str "hi")) with true.
    cbv iota. rewrite hindi_head_split at 1. rewrite <- !app_assoc.
    rewrite split_line by by_computation.
    rewrite split_line by by_computation.
    cbn [map List.filter].
    replace (SimpleLLM.keeps (Py.strip (take 84 Pipeline.hindi_prompt_head)))
      with true by (vm_compute; reflexivity).
    replace (SimpleLLM.keeps (Py.strip (take 54 (drop 85 Pipeline.hindi_prompt_head))))
      with true by (vm_compute; reflexivity).
    reflexivity.
Qed.

Lemma hindi_prompt_sentences_witness :
  SimpleLLM.extract_context
    (Pipeline._build_prompt (str "What do leaves do?") (page_content leaf_doc) (str "hi"))
  = Ok (Pipeline._build_prompt (str "What do leaves do?") (page_content leaf_doc) (str "hi")).
Proof.
  apply (proj1 (hindi_prompt_sentences (str "What do leaves do?") (page_content leaf_doc)
                  ltac:(by_computation) ltac:(by_computation))).
Defined.

(** ** Bounds of the extractive answer *)

Lemma shorten_length (answer shortened : pystr) :
  SimpleLLM.shorten answer = Ok shortened → length shortened ≤ 401.
Proof.
  unfold SimpleLLM.shorten. destruct (400 <? length answer) eqn:Hlong.
  - assert (length (take 400 answer) ≤ 400) as Hle by (rewrite length_take; lia).
    change (str " ") with [32%N].
    destruct (decide (32%N ∈ take 400 answer)) as [Hin|Hout].
    + destruct (rsplit1_char _ _ Hin) as (kept & dropped & Hcut & _ & ->).
      rewrite index_0, bind_Ok. intros [= <-].
      rewrite Hcut in Hle. rewrite !length_app in *. simpl in *. lia.
    + rewrite (rsplit1_char_absent _ _ Hout), index_0, bind_Ok. intros [= <-].
      rewrite length_app. simpl in *. lia.
  - apply Nat.ltb_ge in Hlong. intros [= <-]. lia.
Qed.

(** X18: when no translation is asked for (no language, the empty one or
    [en]), the text [generate] returns is never longer than 401
    characters. *)
Theorem untranslated_answer_bound translate (prompt : pystr)
    (language : option pystr) (out : pystr) :
  SimpleLLM.wants_translation language = false →
  SimpleLLM.generate translate prompt language = Ok out →
  length out ≤ 401.
Proof.
  intros Hlang. destruct (extract_context_total prompt) as [ctx Hctx].
  destruct (SimpleLLM.collect_sentences ctx) as [|s1 rest] eqn:Hsent.
  - unfold SimpleLLM.generate, SimpleLLM.generate_body.
    rewrite Hctx, bind_Ok, Hsent. cbn [try_except]. intros [= <-].
    vm_compute. lia.
  - destruct (shorten_total (SimpleLLM.joined (SimpleLLM.collect_sentences ctx)))
      as [answer Hshort].
    rewrite (generate_some translate prompt language ctx answer answer);
      [| done | by rewrite Hsent | done |].
    + intros [= <-]. by apply (shorten_length _ _ Hshort).
    + unfold SimpleLLM.localise. by rewrite Hlang.
Qed.

Lemma untranslated_answer_bound_witness :
  length (repeat 97%N 400 ++ str ".") ≤ 401.
Proof.
  apply (untranslated_answer_bound no_translator unbroken_prompt (Some (str "en"))).
  - reflexivity.
  - vm_compute; reflexivity.
Defined.

(** X19: [generate] reads a prompt only through the first four sentences
    it keeps: two prompts that agree on them get the same text. *)
Theorem generate_reads_four_sentences translate (prompt prompt' : pystr)
    (language : option pystr) (ctx ctx' : pystr) :
  SimpleLLM.extract_context prompt = Ok ctx →
  SimpleLLM.extract_context prompt' = Ok ctx' →
  take 4 (SimpleLLM.collect_sentences ctx) = take 4 (SimpleLLM.collect_sentences ctx') →
  SimpleLLM.generate translate prompt language
  = SimpleLLM.generate translate prompt' language.
Proof.
  intros Hctx Hctx' Hfour. unfold SimpleLLM.generate, SimpleLLM.generate_body.
  rewrite Hctx, Hctx', !bind_Ok. unfold SimpleLLM.joined. rewrite <- Hfour.
  destruct (SimpleLLM.collect_sentences ctx) as [|s1 rest],
           (SimpleLLM.collect_sentences ctx') as [|s1' rest']; try done.
Qed.

Lemma generate_reads_four_sentences_witness :
  SimpleLLM.generate no_translator water_prompt (Some (str "hi"))
  = SimpleLLM.generate no_translator (water_prompt ++ LF ++ str "tiny") (Some (str "hi")).
Proof.
  apply (generate_reads_four_sentences no_translator water_prompt
           (water_prompt ++ LF ++ str "tiny") (Some (str "hi"))
           water_context (water_context ++ LF ++ str "tiny"));
    vm_compute; reflexivity.
Defined.

(** ** The retrieval namespace *)

Lemma replace_char_absent (a b : N) (s : pystr) :
  a ≠ b → a ∉ Py.replace_char a b s.
Proof.
  intros Hab. unfold Py.replace_char. induction s as [|c s IH]; simpl.
  - apply not_elem_of_nil.
  - apply not_elem_of_cons. split; [|done].
    destruct (c =? a)%N eqn:Hc; [done|]. apply N.eqb_neq in Hc. congruence.
Qed.

(** X20: the namespace exists exactly when subject and grade are both
    non-empty; it then has the length of subject, underscore and grade,
    and holds no space. *)
Theorem namespace_shape (subject grade : option pystr) :
  match subject_grade_namespace subject grade with
  | Some namespace =>
      (∃ s g, subject = Some s ∧ grade = Some g ∧ s ≠ [] ∧ g ≠ []
              ∧ length namespace = length s + 1 + length g)
      ∧ 32%N ∉ namespace
  | None => truthy subject = false ∨ truthy grade = false
  end.
Proof.
  unfold subject_grade_namespace.
  destruct subject as [[|c s]|], grade as [[|d g]|]; simpl; auto.
  split.
  - exists (c :: s), (d :: g). split_and!; try done.
    unfold Py.replace_char. simpl. rewrite length_map, length_app. simpl. lia.
  - apply (replace_char_absent 32%N 95%N ((c :: s) ++ str "_" ++ d :: g)). done.
Qed.

(** ** [get_library]: the subject labels *)

(** X21: the label of a folder is a fixed point: a folder named by a
    label gets that label. *)
Theorem subject_label_idempotent (folder : pystr) :
  Library.subject_label (Library.subject_label folder) = Library.subject_label folder.
Proof.
  unfold Library.subject_label at 2 3.
  destruct (Library.subject_mapping !! folder) as [label|] eqn:Hfolder; simpl.
  - unfold Library.subject_mapping in Hfolder.
    apply elem_of_list_to_map_2 in Hfolder.
    repeat (apply elem_of_cons in Hfolder as [[= -> ->]|Hfolder];
            [vm_compute; reflexivity|]).
    by apply elem_of_nil in Hfolder.
  - unfold Library.subject_label. by rewrite Hfolder.
Qed.

(** ** [make_safe_name] *)

Section safe_names.

Variable isalnum : N → bool.

Let safe_char (c : N) : N :=
  let kept := if isalnum c || (c =? 32)%N || (c =? 95)%N || (c =? 45)%N
              then c else 95%N in
  if (kept =? 32)%N then 95%N else kept.

Lemma make_safe_name_map (s : pystr) :
  Tools.make_safe_name isalnum s = map safe_char s.
Proof. unfold Tools.make_safe_name, Py.replace_char. by rewrite map_map. Qed.

Lemma safe_char_spec (c : N) :
  safe_char c ≠ 32%N
  ∧ (isalnum (safe_char c) = true ∨ safe_char c = 95%N ∨ safe_char c = 45%N)
  ∧ safe_char (safe_char c) = safe_char c.
Proof.
  unfold safe_char.
  destruct (isalnum c) eqn:Halnum; simpl.
  - destruct (c =? 32)%N eqn:Hsp.
    + split_and!; [done | auto | ].
      destruct (isalnum 95%N); reflexivity.
    + apply N.eqb_neq in Hsp. split_and!; [done | auto |].
      rewrite Halnum. simpl. by rewrite (proj2 (N.eqb_neq c 32) Hsp).
  - destruct (c =? 32)%N eqn:Hsp; simpl.
    + apply N.eqb_eq in Hsp as ->. simpl. split_and!; [done | auto |].
      destruct (isalnum 95%N); reflexivity.
    + destruct (c =? 95)%N eqn:Hus; simpl.
      * apply N.eqb_eq in Hus as ->. simpl. split_and!; [done | auto |].
        destruct (isalnum 95%N); reflexivity.
      * destruct (c =? 45)%N eqn:Hhy; simpl.
        -- apply N.eqb_eq in Hhy as ->. simpl. split_and!; [done | auto |].
           destruct (isalnum 45%N); reflexivity.
        -- split_and!; [done | auto |]. destruct (isalnum 95%N); reflexivity.
Qed.

(** X22: a safe name has the length of the name it comes from, holds no
    space, consists of alphanumeric characters, underscores and hyphens,
    and is left unchanged by [make_safe_name]. *)
Theorem make_safe_name_safe (s : pystr) :
  length (Tools.make_safe_name isalnum s) = length s
  ∧ (32%N ∉ Tools.make_safe_name isalnum s)
  ∧ (∀ c, c ∈ Tools.make_safe_name isalnum s →
          isalnum c = true ∨ c = 95%N ∨ c = 45%N)
  ∧ Tools.make_safe_name isalnum (Tools.make_safe_name isalnum s)
    = Tools.make_safe_name isalnum s.
Proof.
  rewrite !make_safe_name_map. split_and!.
  - apply length_map.
  - intros Hin. apply list_elem_of_fmap in Hin as (c & Hc & _).
    by destruct (safe_char_spec c) as (Hne & _ & _).
  - intros c Hin. apply list_elem_of_fmap in Hin as (c' & -> & _).
    by destruct (safe_char_spec c') as (_ & Hclass & _).
  - rewrite map_map. apply map_ext. intros c.
    by destruct (safe_char_spec c) as (_ & _ & Hidem).
Qed.

End safe_names.
